(** * Listings query service (realEstateMCP.py)

    A shallow embedding of the query layer of the real-estate MCP server:
    the five database-facing functions [get_database_schema],
    [query_listings], [describe_columns], [calculate_average_price] and
    [find_best_deals], together with a model of the part of SQLite and of
    the Python built-ins they rely on.

    Layout:
    - [Py]: Python scalars as the functions use them (truthiness, [round]).
    - [Sqlite]: values, the listings table, the catalog, and an interpreter
      for the statements the service emits (text in, rows out).
    - [RealEstateMCP]: the functions of the source file, statement text and
      parameter lists built as the source builds them.
    - [App]: the chat front end (app.py): the prompt it builds, what it
      reads of the agent's reply, and its session state.
    - the properties of the service and of the front end. *)

From Stdlib Require Import ZArith List String Ascii Bool Floats Sorted Lia.
From Stdlib Require Import DecimalString Permutation.
Import ListNotations.

Set Warnings "-inexact-float".

Open Scope string_scope.
Open Scope Z_scope.

(** The line feed, written [\n] in the source. *)
Definition nl : string := String (ascii_of_nat 10) EmptyString.

(** What a call into the storage engine can do. [Unmodelled] marks
    statement texts outside the fragment interpreted below: the model takes
    no position on what the engine does with them.

    [ViaPandas cause] is an error of the driver that reaches the caller
    through [pd.read_sql_query]: the versions of pandas that wrap driver
    errors raise their own [DatabaseError] around [cause], the others let
    [cause] through as it is. The model names the cause and leaves the
    wrapping to the version. *)
Inductive error : Type :=
  | ProgrammingError (msg : string)
  | OperationalError (msg : string)
  | OverflowError (msg : string)
  | ViaPandas (cause : error).

Inductive outcome (A : Type) : Type :=
  | Returned (a : A)
  | Raised (e : error)
  | Unmodelled.

Arguments Returned {A} a.
Arguments Raised {A} e.
Arguments Unmodelled {A}.

Definition bind {A B : Type} (m : outcome A) (k : A -> outcome B) : outcome B :=
  match m with
  | Returned a => k a
  | Raised e => Raised e
  | Unmodelled => Unmodelled
  end.

Notation "x <- m ;; k" := (bind m (fun x => k))
  (at level 61, m at next level, right associativity).

(** ** Python scalars *)

Module Py.

(** [if s:] on a [str]. *)
Definition truthy_str (s : string) : bool := negb (s =? "")%string.

(** [if n:] on an [int]. *)
Definition truthy_int (n : Z) : bool := negb (n =? 0).

(** [if x:] on a [float]: false for [0.0] and [-0.0], true for NaN. *)
Definition truthy_float (x : float) : bool := negb (x =? 0)%float.

(** [if v:] on an [Optional[...]] argument: [None] is falsy, any other
    value has the truthiness of its type. *)
Definition truthy {A : Type} (t : A -> bool) (v : option A) : bool :=
  match v with
  | Some a => t a
  | None => false
  end.

(** [int] to the nearest [float]. *)
Definition float_of_Z (z : Z) : float :=
  SF2Prim (binary_normalize prec emax z 0 false).

(** [n / d] rounded to the nearest integer, ties to even ([d > 0]). *)
Definition round_half_even (n d : Z) : Z :=
  let q := n / d in
  let r := n mod d in
  match (2 * r ?= d) with
  | Lt => q
  | Gt => q + 1
  | Eq => if Z.even q then q else q + 1
  end.

(** The integer [k] with [k / 100] nearest to the magnitude
    [m * 2^e] of a finite float ([e < 0]), ties to even. *)
Definition cents (m : positive) (e : Z) : Z :=
  round_half_even (Zpos m * 100) (2 ^ (- e)).

(** The float nearest to the decimal [k / 100] ([0 <= k]), signed by [s]:
    the correctly rounded quotient of [k] by [100]. *)
Definition hundredths (s : bool) (k : Z) : float :=
  match k with
  | Zpos p => SF2Prim (SFdiv prec emax (S754_finite s p 0) (S754_finite false 100 0))
  | _ => SF2Prim (S754_zero s)
  end.

(** [round(x, 2)] on a [float]: the exact binary value is rounded to two
    decimals, ties to even, and the decimal [k / 100] is converted back to
    the nearest float. Zeros, infinities, NaN and floats without
    fractional bits round to themselves. *)
Definition round2 (x : float) : float :=
  match Prim2SF x with
  | S754_finite s m e => if 0 <=? e then x else hundredths s (cents m e)
  | _ => x
  end.

End Py.

(** ** The storage engine *)

Module Sqlite.

(** *** Values and the listings table *)

Inductive value : Type :=
  | VNull
  | VInt (n : Z)
  | VReal (x : float)
  | VText (s : string).

(** One row of table [Sacramento]. Columns hold non-NULL values of their
    declared kinds: text for [city] and [state], integers for [price],
    [beds] and [baths], reals for the coordinates. *)
Record listing : Type := {
  city : string;
  state : string;
  price : Z;
  beds : Z;
  baths : Z;
  latitude : float;
  longitude : float
}.

(** A row of a result set over the listings: the columns of [*] and, when
    the statement computes it, the derived column [distance]. *)
Record output_row : Type := {
  row_listing : listing;
  row_distance : option value
}.

Inductive result : Type :=
  | Rows (rs : list output_row)
  | Aggregate (avg_price : value) (total_listings : Z).

(** The math functions of the engine ([radians], [cos], [sin], [acos], from
    the C library SQLite is built with), taken as an interface. *)
Class MathFunctions : Type := {
  radians : float -> float;
  cos : float -> float;
  sin : float -> float;
  acos : float -> float
}.

(** *** Statement text *)

Definition is_space (c : ascii) : bool :=
  match nat_of_ascii c with
  | 9%nat | 10%nat | 12%nat | 13%nat | 32%nat => true
  | _ => false
  end.

Definition flush (cur : string) (k : list string) : list string :=
  match cur with
  | EmptyString => k
  | _ => cur :: k
  end.

(** The blank-separated words of a statement. *)
Fixpoint words_from (s cur : string) : list string :=
  match s with
  | EmptyString => flush cur []
  | String c s' =>
      if is_space c then flush cur (words_from s' "")
      else words_from s' (cur ++ String c "")
  end.

Definition words (s : string) : list string := words_from s "".

Fixpoint strip_words (p ws : list string) : option (list string) :=
  match p with
  | [] => Some ws
  | x :: p' =>
      match ws with
      | w :: ws' => if (x =? w)%string then strip_words p' ws' else None
      | [] => None
      end
  end.

Inductive column : Type :=
  | Col_city | Col_state | Col_price | Col_beds | Col_baths
  | Col_latitude | Col_longitude | Col_distance.

Inductive comparison_op : Type := Op_eq | Op_le | Op_ge.

(** [column op ?]: the right operand is always a placeholder. *)
Record predicate : Type := {
  pred_column : column;
  pred_op : comparison_op
}.

Inductive projection : Type :=
  | Star
  | Star_with_distance
  | Avg_price_count.

Record select : Type := {
  sel_projection : projection;
  sel_where : list predicate;
  sel_order_by_price : bool;
  sel_limit : option nat
}.

Definition parse_column (w : string) : option column :=
  if (w =? "city")%string then Some Col_city
  else if (w =? "state")%string then Some Col_state
  else if (w =? "price")%string then Some Col_price
  else if (w =? "beds")%string then Some Col_beds
  else if (w =? "baths")%string then Some Col_baths
  else if (w =? "latitude")%string then Some Col_latitude
  else if (w =? "longitude")%string then Some Col_longitude
  else if (w =? "distance")%string then Some Col_distance
  else None.

Definition parse_op (w : string) : option comparison_op :=
  if (w =? "=")%string then Some Op_eq
  else if (w =? "<=")%string then Some Op_le
  else if (w =? ">=")%string then Some Op_ge
  else None.

(** [p AND p AND ... p], then whatever follows. *)
Fixpoint parse_conjunction (ws : list string) : option (list predicate * list string) :=
  match ws with
  | c :: o :: q :: rest =>
      match parse_column c, parse_op o, (q =? "?")%string with
      | Some col, Some op, true =>
          let p := {| pred_column := col; pred_op := op |} in
          match rest with
          | a :: rest' =>
              if (a =? "AND")%string then
                match parse_conjunction rest' with
                | Some (ps, r) => Some (p :: ps, r)
                | None => None
                end
              else Some ([p], rest)
          | [] => Some ([p], [])
          end
      | _, _, _ => None
      end
  | _ => None
  end.

Definition digit (c : ascii) : option nat :=
  let n := nat_of_ascii c in
  if ((48 <=? n) && (n <=? 57))%nat then Some (n - 48)%nat else None.

Fixpoint parse_nat_from (s : string) (acc : nat) : option nat :=
  match s with
  | EmptyString => Some acc
  | String c s' =>
      match digit c with
      | Some d => parse_nat_from s' (10 * acc + d)%nat
      | None => None
      end
  end.

Definition parse_nat (s : string) : option nat :=
  match s with
  | EmptyString => None
  | _ => parse_nat_from s 0%nat
  end.

(** The words of the distance projection of [find_best_deals]. *)
Definition distance_projection_words : list string :=
  [ "*,"; "(6371"; "*"; "acos(cos(radians(?))"; "*"; "cos(radians(latitude))";
    "*"; "cos(radians(longitude)"; "-"; "radians(?))"; "+"; "sin(radians(?))";
    "*"; "sin(radians(latitude))))"; "AS"; "distance" ].

Definition average_projection_words : list string :=
  [ "AVG(price)"; "as"; "avg_price,"; "COUNT(*)"; "as"; "total_listings" ].

Definition parse_projection (ws : list string) : option (projection * list string) :=
  match strip_words ["*"] ws with
  | Some r => Some (Star, r)
  | None =>
      match strip_words distance_projection_words ws with
      | Some r => Some (Star_with_distance, r)
      | None =>
          match strip_words average_projection_words ws with
          | Some r => Some (Avg_price_count, r)
          | None => None
          end
      end
  end.

Definition parse_where (ws : list string) : option (list predicate * list string) :=
  match strip_words ["WHERE"] ws with
  | Some r => parse_conjunction r
  | None => Some ([], ws)
  end.

Definition parse_order (ws : list string) : bool * list string :=
  match strip_words ["ORDER"; "BY"; "price"; "ASC"] ws with
  | Some r => (true, r)
  | None => (false, ws)
  end.

Definition parse_limit (ws : list string) : option (option nat * list string) :=
  match strip_words ["LIMIT"] ws with
  | Some (n :: r) =>
      match parse_nat n with
      | Some k => Some (Some k, r)
      | None => None
      end
  | Some [] => None
  | None => Some (None, ws)
  end.

(** The fragment of SELECT over [Sacramento] that the service emits. *)
Definition parse_select (text : string) : option select :=
  match strip_words ["SELECT"] (words text) with
  | None => None
  | Some ws =>
      match parse_projection ws with
      | None => None
      | Some (proj, ws) =>
          match strip_words ["FROM"; "Sacramento"] ws with
          | None => None
          | Some ws =>
              match parse_where ws with
              | None => None
              | Some (preds, ws) =>
                  let '(ord, ws) := parse_order ws in
                  match parse_limit ws with
                  | Some (lim, []) =>
                      Some {| sel_projection := proj; sel_where := preds;
                              sel_order_by_price := ord; sel_limit := lim |}
                  | _ => None
                  end
              end
          end
      end
  end.

(** *** Evaluation *)

(** A Python argument as the driver binds it: a NaN is stored as NULL. *)
Definition bind_parameter (v : value) : value :=
  match v with
  | VReal x => if PrimFloat.is_nan x then VNull else VReal x
  | _ => v
  end.

(** A real result of an expression: NaN becomes NULL. *)
Definition real_result (x : float) : value :=
  if PrimFloat.is_nan x then VNull else VReal x.

(** The numeric argument of a math function; NULL and text give NULL. *)
Definition to_real (v : value) : option float :=
  match v with
  | VInt n => Some (Py.float_of_Z n)
  | VReal x => Some x
  | VNull | VText _ => None
  end.

(** The derived column of [find_best_deals],
    [6371 * acos(cos(radians(?)) * cos(radians(latitude)) *
     cos(radians(longitude) - radians(?)) + sin(radians(?)) * sin(radians(latitude)))],
    with its three placeholders bound in order to [p1], [p2], [p3]. *)
Definition distance_expression `{MathFunctions} (p1 p2 p3 : value) (r : listing) : value :=
  match to_real p1, to_real p2, to_real p3 with
  | Some a, Some b, Some c =>
      real_result
        (6371 * acos (cos (radians a) * cos (radians (latitude r)) *
                      cos (radians (longitude r) - radians b) +
                      sin (radians c) * sin (radians (latitude r))))%float
  | _, _, _ => VNull
  end.

Definition column_value (c : column) (o : output_row) : option value :=
  let r := row_listing o in
  match c with
  | Col_city => Some (VText (city r))
  | Col_state => Some (VText (state r))
  | Col_price => Some (VInt (price r))
  | Col_beds => Some (VInt (beds r))
  | Col_baths => Some (VInt (baths r))
  | Col_latitude => Some (VReal (latitude r))
  | Col_longitude => Some (VReal (longitude r))
  | Col_distance => row_distance o
  end.

Definition of_float_comparison (c : float_comparison) : option comparison :=
  match c with
  | FEq => Some Eq
  | FLt => Some Lt
  | FGt => Some Gt
  | FNotComparable => None
  end.

(** Comparison of two values by storage class (numbers before text, no
    affinity conversion); NULL compares with nothing. An integer meets a
    real through its nearest float. *)
Definition compare_values (a b : value) : option comparison :=
  match a, b with
  | VNull, _ | _, VNull => None
  | VInt m, VInt n => Some (m ?= n)
  | VInt m, VReal y => of_float_comparison (PrimFloat.compare (Py.float_of_Z m) y)
  | VReal x, VInt n => of_float_comparison (PrimFloat.compare x (Py.float_of_Z n))
  | VReal x, VReal y => of_float_comparison (PrimFloat.compare x y)
  | VText s, VText t => Some (String.compare s t)
  | VText _, _ => Some Gt
  | _, VText _ => Some Lt
  end.

Definition holds_op (op : comparison_op) (c : comparison) : bool :=
  match op, c with
  | Op_eq, Eq => true
  | Op_le, (Lt | Eq) => true
  | Op_ge, (Gt | Eq) => true
  | _, _ => false
  end.

(** [column op ?] on a row, the placeholder bound to [v]: true only when
    the comparison is defined and holds. *)
Definition eval_predicate (p : predicate) (v : value) (o : output_row) : bool :=
  match column_value (pred_column p) o with
  | Some a =>
      match compare_values a v with
      | Some c => holds_op (pred_op p) c
      | None => false
      end
  | None => false
  end.

Fixpoint eval_where (ps : list predicate) (vs : list value) (o : output_row) : bool :=
  match ps, vs with
  | p :: ps', v :: vs' => eval_predicate p v o && eval_where ps' vs' o
  | _, _ => true
  end.

(** ORDER BY price ASC. The engine leaves the order of rows of equal price
    open; the model keeps their table order. *)
Fixpoint insert_by_price (o : output_row) (l : list output_row) : list output_row :=
  match l with
  | [] => [o]
  | h :: t =>
      if price (row_listing o) <=? price (row_listing h) then o :: l
      else h :: insert_by_price o t
  end.

Definition order_by_price (l : list output_row) : list output_row :=
  fold_right insert_by_price [] l.

Definition apply_order (ord : bool) (l : list output_row) : list output_row :=
  if ord then order_by_price l else l.

Definition apply_limit (lim : option nat) (l : list output_row) : list output_row :=
  match lim with
  | Some k => firstn k l
  | None => l
  end.

(** The running total AVG keeps: a binary64 number, to which each price
    is added in row order, rounding at each step (the engine's [rSum += v];
    releases from 3.44 on keep the integer sum exactly while it fits 64
    bits, which gives the same total as long as no partial sum exceeds
    2^53). *)
Definition running_total (l : list output_row) : float :=
  fold_left (fun total o => (total + Py.float_of_Z (price (row_listing o)))%float) l 0%float.

(** The mean of the prices: the running total over the count, divided in
    binary64. *)
Definition mean_price (l : list output_row) : float :=
  (running_total l / Py.float_of_Z (Z.of_nat (List.length l)))%float.

(** AVG(price): NULL over no rows, and a floating point value as soon as
    there is one row. *)
Definition avg (l : list output_row) : value :=
  match l with
  | [] => VNull
  | _ => VReal (mean_price l)
  end.

Definition projection_placeholders (p : projection) : nat :=
  match p with
  | Star_with_distance => 3%nat
  | _ => 0%nat
  end.

Definition project `{MathFunctions} (p : projection) (vs : list value) (r : listing) : output_row :=
  match p, vs with
  | Star_with_distance, p1 :: p2 :: p3 :: _ =>
      {| row_listing := r; row_distance := Some (distance_expression p1 p2 p3 r) |}
  | _, _ => {| row_listing := r; row_distance := None |}
  end.

Definition mentions_distance (ps : list predicate) : bool :=
  existsb (fun p => match pred_column p with Col_distance => true | _ => false end) ps.

(** The integers the engine stores: 64-bit, signed. *)
Definition int64 (n : Z) : bool := (- 2 ^ 63 <=? n) && (n <? 2 ^ 63).

(** The driver refuses to bind a Python [int] outside that range. *)
Definition storable (v : value) : bool :=
  match v with
  | VInt n => int64 n
  | _ => true
  end.

Definition overflow : error :=
  OverflowError "Python int too large to convert to SQLite INTEGER".

(** A statement is prepared (an unknown column is found then), its
    parameters are counted and bound, and it runs. *)
Definition run_select `{MathFunctions} (s : select) (vs : list value) (table : list listing)
  : outcome result :=
  let k := projection_placeholders (sel_projection s) in
  if mentions_distance (sel_where s)
     && negb (match sel_projection s with Star_with_distance => true | _ => false end) then
    Raised (OperationalError "no such column: distance")
  else if negb (List.length vs =? k + List.length (sel_where s))%nat then
    Raised (ProgrammingError "Incorrect number of bindings supplied.")
  else if negb (forallb storable vs) then
    Raised overflow
  else
    let kept :=
      filter (eval_where (sel_where s) (skipn k vs))
             (map (project (sel_projection s) vs) table) in
    match sel_projection s with
    | Avg_price_count =>
        match sel_order_by_price s, sel_limit s with
        | false, None => Returned (Aggregate (avg kept) (Z.of_nat (List.length kept)))
        | _, _ => Unmodelled
        end
    | _ =>
        Returned (Rows (apply_limit (sel_limit s) (apply_order (sel_order_by_price s) kept)))
    end.

(** Running a statement with its bound parameters over table [Sacramento]. *)
Definition execute `{MathFunctions} (text : string) (params : list value) (table : list listing)
  : outcome result :=
  match parse_select text with
  | Some s => run_select s (map bind_parameter params) table
  | None => Unmodelled
  end.

(** *** The catalog *)

(** One row of [PRAGMA table_info]: [notnull] is 1 for a NOT NULL column,
    [dflt_value] is the text of the default or NULL, [pk] is 0 for a
    column outside the primary key and otherwise the 1-based position of
    the column in the primary key. *)
Record column_info : Type := {
  cid : Z;
  name : string;
  type : string;
  notnull : Z;
  dflt_value : option string;
  pk : Z
}.

(** An object the engine can locate by name. [entry_type] is its [type] in
    [sqlite_master] (["table"], ["view"], ...); objects that
    [sqlite_master] does not list as tables carry another type. *)
Record catalog_entry : Type := {
  entry_type : string;
  entry_name : string;
  entry_columns : list column_info;
  entry_rows : list (list value)
}.

Definition catalog : Type := list catalog_entry.

Definition master_tables_text : string :=
  "SELECT name FROM sqlite_master WHERE type='table';".

Definition table_names (db : catalog) : list string :=
  map entry_name (filter (fun e => (entry_type e =? "table")%string) db).

(** [cursor.execute(text); cursor.fetchall()] for the catalog listing. *)
Definition select_table_names (text : string) (db : catalog) : outcome (list string) :=
  if (text =? master_tables_text)%string then Returned (table_names db) else Unmodelled.

Definition upper_char (c : ascii) : ascii :=
  let n := nat_of_ascii c in
  if ((97 <=? n) && (n <=? 122))%nat then ascii_of_nat (n - 32) else c.

Fixpoint upper (s : string) : string :=
  match s with
  | EmptyString => EmptyString
  | String c s' => String (upper_char c) (upper s')
  end.

Definition is_letter (c : ascii) : bool :=
  let n := nat_of_ascii (upper_char c) in
  ((65 <=? n) && (n <=? 90))%nat || (n =? 95)%nat.

Definition is_name_char (c : ascii) : bool :=
  let n := nat_of_ascii c in
  is_letter c || ((48 <=? n) && (n <=? 57))%nat || (n =? 36)%nat.

Fixpoint all_chars (f : ascii -> bool) (s : string) : bool :=
  match s with
  | EmptyString => true
  | String c s' => f c && all_chars f s'
  end.

Definition keywords : list string :=
  [ "ABORT"; "ACTION"; "ADD"; "AFTER"; "ALL"; "ALTER"; "ALWAYS"; "ANALYZE"; "AND";
    "AS"; "ASC"; "ATTACH"; "AUTOINCREMENT"; "BEFORE"; "BEGIN"; "BETWEEN"; "BY";
    "CASCADE"; "CASE"; "CAST"; "CHECK"; "COLLATE"; "COLUMN"; "COMMIT"; "CONFLICT";
    "CONSTRAINT"; "CREATE"; "CROSS"; "CURRENT"; "CURRENT_DATE"; "CURRENT_TIME";
    "CURRENT_TIMESTAMP"; "DATABASE"; "DEFAULT"; "DEFERRABLE"; "DEFERRED"; "DELETE";
    "DESC"; "DETACH"; "DISTINCT"; "DO"; "DROP"; "EACH"; "ELSE"; "END"; "ESCAPE";
    "EXCEPT"; "EXCLUDE"; "EXCLUSIVE"; "EXISTS"; "EXPLAIN"; "FAIL"; "FILTER"; "FIRST";
    "FOLLOWING"; "FOR"; "FOREIGN"; "FROM"; "FULL"; "GENERATED"; "GLOB"; "GROUP";
    "GROUPS"; "HAVING"; "IF"; "IGNORE"; "IMMEDIATE"; "IN"; "INDEX"; "INDEXED";
    "INITIALLY"; "INNER"; "INSERT"; "INSTEAD"; "INTERSECT"; "INTO"; "IS"; "ISNULL";
    "JOIN"; "KEY"; "LAST"; "LEFT"; "LIKE"; "LIMIT"; "MATCH"; "MATERIALIZED";
    "NATURAL"; "NO"; "NOT"; "NOTHING"; "NOTNULL"; "NULL"; "NULLS"; "OF"; "OFFSET";
    "ON"; "OR"; "ORDER"; "OTHERS"; "OUTER"; "OVER"; "PARTITION"; "PLAN"; "PRAGMA";
    "PRECEDING"; "PRIMARY"; "QUERY"; "RAISE"; "RANGE"; "RECURSIVE"; "REFERENCES";
    "REGEXP"; "REINDEX"; "RELEASE"; "RENAME"; "REPLACE"; "RESTRICT"; "RETURNING";
    "RIGHT"; "ROLLBACK"; "ROW"; "ROWS"; "SAVEPOINT"; "SELECT"; "SET"; "TABLE";
    "TEMP"; "TEMPORARY"; "THEN"; "TIES"; "TO"; "TRANSACTION"; "TRIGGER"; "UNBOUNDED";
    "UNION"; "UNIQUE"; "UPDATE"; "USING"; "VACUUM"; "VALUES"; "VIEW"; "VIRTUAL";
    "WHEN"; "WHERE"; "WINDOW"; "WITH"; "WITHIN"; "WITHOUT" ].

(** A name the tokenizer reads as one bare identifier: a letter or
    underscore, then letters, digits, underscores or dollars, and no
    keyword. Quoted names and other texts are outside the model. *)
Definition bare_identifier (s : string) : bool :=
  match s with
  | EmptyString => false
  | String c s' =>
      is_letter c && all_chars is_name_char s'
      && negb (existsb (String.eqb (upper s)) keywords)
  end.

Fixpoint strip_prefix (p s : string) : option string :=
  match p with
  | EmptyString => Some s
  | String a p' =>
      match s with
      | String b s' => if (a =? b)%char then strip_prefix p' s' else None
      | EmptyString => None
      end
  end.

Fixpoint strip_suffix (suf s : string) : option string :=
  if (s =? suf)%string then Some EmptyString
  else
    match s with
    | EmptyString => None
    | String c s' => option_map (String c) (strip_suffix suf s')
    end.

(** The argument of a [PRAGMA table_info(...);] statement. *)
Definition table_info_argument (text : string) : option string :=
  match strip_prefix "PRAGMA table_info(" text with
  | Some rest => strip_suffix ");" rest
  | None => None
  end.

(** Names match without regard to ASCII case. *)
Definition locate (db : catalog) (t : string) : option catalog_entry :=
  find (fun e => (upper (entry_name e) =? upper t)%string) db.

(** [cursor.execute(text); cursor.fetchall()] for [PRAGMA table_info]: the
    columns of the named object, and no rows at all (not an error) when
    the name locates nothing. *)
Definition pragma_table_info (text : string) (db : catalog) : outcome (list column_info) :=
  match table_info_argument text with
  | Some arg =>
      if bare_identifier arg then
        Returned (match locate db arg with
                  | Some e => entry_columns e
                  | None => []
                  end)
      else Unmodelled
  | None => Unmodelled
  end.

End Sqlite.

(** ** The service (realEstateMCP.py) *)

Module RealEstateMCP.

Import Sqlite.

(** What a function hands to the engine: the statement text and the list
    of values bound to its placeholders. *)
Record statement : Type := {
  query : string;
  params : list value
}.

(** Python arguments as bound values. *)
Definition of_str (v : option string) : value :=
  match v with
  | Some s => VText s
  | None => VNull
  end.

Definition of_int (v : option Z) : value :=
  match v with
  | Some n => VInt n
  | None => VNull
  end.

Definition of_float (v : option float) : value :=
  match v with
  | Some x => VReal x
  | None => VNull
  end.

(** [if v: conditions.append(c); params.append(v)] *)
Definition append_if (b : bool) (c : string) (v : value)
  (st : list string * list value) : list string * list value :=
  if b then ((fst st ++ [c])%list, (snd st ++ [v])%list) else st.

(** [if conditions: query += " WHERE " + " AND ".join(conditions)] *)
Definition add_where (query : string) (conditions : list string) : string :=
  match conditions with
  | [] => query
  | _ => query ++ " WHERE " ++ String.concat " AND " conditions
  end.

(** *** query_listings *)

Definition query_listings_conditions
  (city state : option string) (min_beds max_price : option Z)
  : list string * list value :=
  let st := ([], []) in
  let st := append_if (Py.truthy Py.truthy_str city) "city = ?" (of_str city) st in
  let st := append_if (Py.truthy Py.truthy_str state) "state = ?" (of_str state) st in
  let st := append_if (Py.truthy Py.truthy_int min_beds) "beds >= ?" (of_int min_beds) st in
  let st := append_if (Py.truthy Py.truthy_int max_price) "price <= ?" (of_int max_price) st in
  st.

Definition query_listings_statement
  (city state : option string) (min_beds max_price : option Z) : statement :=
  let query := "SELECT * FROM Sacramento" in
  let '(conditions, params) := query_listings_conditions city state min_beds max_price in
  {| query := add_where query conditions; params := params |}.

(** [pd.read_sql_query(query, conn, params=params)]: the rows of the data
    frame (the functions return their text rendering, [df.to_string]).
    An error of the driver reaches the caller through pandas. *)
Definition read_sql_query `{MathFunctions} (st : statement) (table : list listing)
  : outcome (list output_row) :=
  match execute (query st) (params st) table with
  | Returned (Rows rs) => Returned rs
  | Returned (Aggregate _ _) => Unmodelled
  | Raised e => Raised (ViaPandas e)
  | Unmodelled => Unmodelled
  end.

Definition query_listings `{MathFunctions}
  (city state : option string) (min_beds max_price : option Z) (table : list listing)
  : outcome (list output_row) :=
  read_sql_query (query_listings_statement city state min_beds max_price) table.

(** *** calculate_average_price *)

Record price_statistics : Type := {
  average_price : option float;
  total_listings : Z
}.

Definition calculate_average_price_conditions
  (city state : option string) (beds : option Z) : list string * list value :=
  let st := ([], []) in
  let st := append_if (Py.truthy Py.truthy_str city) "city = ?" (of_str city) st in
  let st := append_if (Py.truthy Py.truthy_str state) "state = ?" (of_str state) st in
  let st := append_if (Py.truthy Py.truthy_int beds) "beds = ?" (of_int beds) st in
  st.

Definition calculate_average_price_statement
  (city state : option string) (beds : option Z) : statement :=
  let query := "SELECT AVG(price) as avg_price, COUNT(*) as total_listings FROM Sacramento" in
  let '(conditions, params) := calculate_average_price_conditions city state beds in
  {| query := add_where query conditions; params := params |}.

(** [round(result[0], 2) if result[0] is not None else None], with
    [result[1]] beside it. *)
Definition calculate_average_price `{MathFunctions}
  (city state : option string) (beds : option Z) (table : list listing)
  : outcome price_statistics :=
  let st := calculate_average_price_statement city state beds in
  r <- execute (query st) (params st) table ;;
  match r with
  | Aggregate VNull n => Returned {| average_price := None; total_listings := n |}
  | Aggregate (VReal x) n =>
      Returned {| average_price := Some (Py.round2 x); total_listings := n |}
  | _ => Unmodelled
  end.

(** *** find_best_deals *)

Definition simple_deals_query : string :=
  nl ++
  "        SELECT " ++ nl ++
  "            * FROM Sacramento" ++ nl ++
  "        WHERE " ++ nl ++
  "            price <= ? AND " ++ nl ++
  "            beds >= ?" ++ nl ++
  "        ".

Definition distance_deals_query : string :=
  nl ++
  "            SELECT " ++ nl ++
  "                *," ++ nl ++
  "                (6371 * acos(cos(radians(?)) * cos(radians(latitude)) * " ++ nl ++
  "                 cos(radians(longitude) - radians(?)) + " ++ nl ++
  "                 sin(radians(?)) * sin(radians(latitude)))) AS distance" ++ nl ++
  "            FROM Sacramento" ++ nl ++
  "            WHERE " ++ nl ++
  "                price <= ? AND " ++ nl ++
  "                beds >= ? AND" ++ nl ++
  "                distance <= ?" ++ nl ++
  "            ".

Definition find_best_deals_statement
  (max_price min_beds : Z) (max_distance : float)
  (reference_lat reference_lon : option float) : statement :=
  let query := simple_deals_query in
  let params := [VInt max_price; VInt min_beds] in
  let '(query, params) :=
    if Py.truthy Py.truthy_float reference_lat && Py.truthy Py.truthy_float reference_lon
    then (distance_deals_query,
          [ of_float reference_lat; of_float reference_lon; of_float reference_lat;
            VInt max_price; VInt min_beds; VReal max_distance ])
    else (query, params) in
  {| query := query ++ " ORDER BY price ASC LIMIT 10"; params := params |}.

Definition find_best_deals `{MathFunctions}
  (max_price min_beds : Z) (max_distance : float)
  (reference_lat reference_lon : option float) (table : list listing)
  : outcome (list output_row) :=
  read_sql_query
    (find_best_deals_statement max_price min_beds max_distance reference_lat reference_lon)
    table.

(** *** describe_columns and get_database_schema *)

(** [f"PRAGMA table_info({table_name});"] *)
Definition table_info_statement (table_name : string) : statement :=
  {| query := "PRAGMA table_info(" ++ table_name ++ ");"; params := [] |}.

(** [x or 'None'] on the text of a default. *)
Definition or_None (x : option string) : string :=
  match x with
  | Some s => if Py.truthy_str s then s else "None"
  | None => "None"
  end.

Definition yes_no (b : bool) : string := if b then "Yes" else "No".

(** The four lines added for one column by [describe_columns]. *)
Definition column_description (column : column_info) : string :=
  "  - " ++ name column ++ " (" ++ type column ++ ")" ++ nl ++
  "    Nullable: " ++ yes_no (notnull column =? 0) ++ nl ++
  "    Default Value: " ++ or_None (dflt_value column) ++ nl ++
  "    Primary Key: " ++ yes_no (pk column =? 1) ++ nl.

(** The body of [for table in tables:] of [describe_columns], from the
    description built so far. *)
Fixpoint describe_tables (tables : list string) (description : string) (db : catalog)
  : outcome string :=
  match tables with
  | [] => Returned description
  | table_name :: rest =>
      let description := description ++ nl ++ "Table: " ++ table_name ++ nl in
      columns <- pragma_table_info (query (table_info_statement table_name)) db ;;
      describe_tables rest
        (fold_left (fun d column => d ++ column_description column) columns description) db
  end.

Definition describe_columns (table_name : option string) (db : catalog) : outcome string :=
  tables <- (if negb (Py.truthy Py.truthy_str table_name)
             then select_table_names "SELECT name FROM sqlite_master WHERE type='table';" db
             else Returned [match table_name with Some t => t | None => "" end]) ;;
  describe_tables tables ("Column Descriptions:" ++ nl) db.

(** The line added for one column by [get_database_schema]. *)
Definition schema_line (column : column_info) : string :=
  "  " ++ name column ++ " (" ++ type column ++ ")" ++ nl.

Fixpoint schema_tables (tables : list string) (schema_description : string) (db : catalog)
  : outcome string :=
  match tables with
  | [] => Returned schema_description
  | table_name :: rest =>
      let schema_description := schema_description ++ nl ++ "Table: " ++ table_name ++ nl in
      columns <- pragma_table_info (query (table_info_statement table_name)) db ;;
      schema_tables rest
        (fold_left (fun d column => d ++ schema_line column) columns schema_description) db
  end.

Definition get_database_schema (db : catalog) : outcome string :=
  tables <- select_table_names "SELECT name FROM sqlite_master WHERE type='table';" db ;;
  schema_tables tables ("Database Schema:" ++ nl) db.

End RealEstateMCP.

(** ** A concrete math library

    Series approximations of the C functions, close to them on the
    arguments that coordinates produce. They give the engine something to
    compute with; the properties of the service proved for every
    [MathFunctions] do not depend on them. *)

Module Libm.

Open Scope float_scope.

Definition pi : float := 0x1.921fb54442d18p+1.

Definition radians (x : float) : float := x * (pi / 180).

(** [1 - x2/(a(a+1)) * (1 - x2/((a+2)(a+3)) * ...)], [n] factors deep. *)
Fixpoint alternating (n : nat) (a x2 : float) : float :=
  match n with
  | O => 1
  | S n' => 1 - x2 / (a * (a + 1)) * alternating n' (a + 2) x2
  end.

Definition cos (x : float) : float := alternating 16 1 (x * x).

Definition sin (x : float) : float := x * alternating 16 2 (x * x).

(** Newton's iteration for [cos t = y]. *)
Fixpoint refine (n : nat) (y t : float) : float :=
  match n with
  | O => t
  | S n' => refine n' y (t + (cos t - y) / sin t)
  end.

Definition acos_upper (y : float) : float :=
  let t := sqrt (2 * (1 - y)) in
  if t =? 0 then 0 else refine 6 y (t * (1 + (1 - y) / 12)).

Definition acos (y : float) : float :=
  if (1 <? y) || (y <? -1) || PrimFloat.is_nan y then nan
  else if y <? 0 then pi - acos_upper (- y)
  else acos_upper y.

#[export] Instance math : Sqlite.MathFunctions := {
  Sqlite.radians := radians;
  Sqlite.cos := cos;
  Sqlite.sin := sin;
  Sqlite.acos := acos
}.

End Libm.

(** ** Reading the results *)

Module Behaviour.

Import Sqlite RealEstateMCP.

(** A result row that carries the columns of the listing only. *)
Definition plain (r : listing) : output_row :=
  {| row_listing := r; row_distance := None |}.

(** The constraint a text argument puts on a column: none when the
    argument is [None] or empty. *)
Definition text_filter (v : option string) (x : string) : bool :=
  match v with
  | Some s => if Py.truthy_str s then (x =? s)%string else true
  | None => true
  end.

(** The constraint an integer argument puts on a column through the
    comparison [cmp column argument]: none when the argument is [None] or
    zero. *)
Definition int_filter (cmp : Z -> Z -> bool) (v : option Z) (x : Z) : bool :=
  match v with
  | Some n => if Py.truthy_int n then cmp x n else true
  | None => true
  end.

Definition listing_filter (city state : option string) (min_beds max_price : option Z)
  (r : listing) : bool :=
  text_filter city (Sqlite.city r) && text_filter state (Sqlite.state r)
  && int_filter Z.geb min_beds (Sqlite.beds r)
  && int_filter Z.leb max_price (Sqlite.price r).

Definition average_filter (city state : option string) (beds : option Z)
  (r : listing) : bool :=
  text_filter city (Sqlite.city r) && text_filter state (Sqlite.state r)
  && int_filter Z.eqb beds (Sqlite.beds r).

Definition used {A : Type} (t : A -> bool) (v : option A) : nat :=
  if Py.truthy t v then 1%nat else 0%nat.

(** The number of predicates the engine reads in a statement. *)
Definition predicate_count (text : string) : option nat :=
  option_map (fun s => List.length (sel_where s)) (parse_select text).

(** The fields in use of a listing search, and of an average. *)
Definition fields_in_use (city state : option string) (n m : option Z) : list bool :=
  [ Py.truthy Py.truthy_str city; Py.truthy Py.truthy_str state;
    Py.truthy Py.truthy_int n; Py.truthy Py.truthy_int m ].

(** The predicates the engine reads in a statement. *)
Definition predicates (text : string) : option (list predicate) :=
  option_map sel_where (parse_select text).

(** Of the predicates [ps], one per field, those whose field is in use. *)
Definition in_use (flags : list bool) (ps : list predicate) : list predicate :=
  map snd (filter fst (combine flags ps)).

Definition listing_predicates : list predicate :=
  [ {| pred_column := Col_city; pred_op := Op_eq |};
    {| pred_column := Col_state; pred_op := Op_eq |};
    {| pred_column := Col_beds; pred_op := Op_ge |};
    {| pred_column := Col_price; pred_op := Op_le |} ].

Definition average_predicates : list predicate :=
  [ {| pred_column := Col_city; pred_op := Op_eq |};
    {| pred_column := Col_state; pred_op := Op_eq |};
    {| pred_column := Col_beds; pred_op := Op_eq |} ].

(** The number of [?] in a statement. *)
Fixpoint placeholders (text : string) : nat :=
  match text with
  | EmptyString => 0%nat
  | String c s => ((if (c =? "?")%char then 1 else 0) + placeholders s)%nat
  end.

(** The row of [find_best_deals] with its distance from the reference
    point, as bound by the function: latitude, longitude, latitude. *)
Definition with_distance `{MathFunctions} (lat lon : float) (r : listing) : output_row :=
  {| row_listing := r;
     row_distance :=
       Some (distance_expression (bind_parameter (VReal lat)) (bind_parameter (VReal lon))
                                 (bind_parameter (VReal lat)) r) |}.

(** [distance <= max_distance] on a result row: false when the distance is
    NULL or the comparison is undefined. *)
Definition within (max_distance : float) (o : output_row) : bool :=
  match row_distance o with
  | Some (VReal d) => (d <=? max_distance)%float
  | _ => false
  end.

Definition deal_filter (max_price min_beds : Z) (o : output_row) : bool :=
  (price (row_listing o) <=? max_price) && (beds (row_listing o) >=? min_beds).

Definition price_le (a b : output_row) : Prop :=
  price (row_listing a) <= price (row_listing b).

(** The same constraints as propositions. *)
Definition text_holds (v : option string) (x : string) : Prop :=
  forall s, v = Some s -> s <> "" -> x = s.

Definition int_holds (R : Z -> Z -> Prop) (v : option Z) (x : Z) : Prop :=
  forall n, v = Some n -> n <> 0 -> R x n.

Definition listing_holds (city state : option string) (min_beds max_price : option Z)
  (r : listing) : Prop :=
  text_holds city (Sqlite.city r) /\ text_holds state (Sqlite.state r)
  /\ int_holds Z.ge min_beds (Sqlite.beds r)
  /\ int_holds Z.le max_price (Sqlite.price r).

Definition average_holds (city state : option string) (beds : option Z)
  (r : listing) : Prop :=
  text_holds city (Sqlite.city r) /\ text_holds state (Sqlite.state r)
  /\ int_holds eq beds (Sqlite.beds r).

(** The mean price of some listings, as the engine computes it. *)
Definition mean (rows : list listing) : float := mean_price (map plain rows).

(** The column entries of a table, one after the other. *)
Definition columns_text (columns : list column_info) : string :=
  fold_right (fun column rest => column_description column ++ rest) "" columns.

(** The description of one table: its title line, then its columns. *)
Definition table_text (table_name : string) (columns : list column_info) : string :=
  nl ++ "Table: " ++ table_name ++ nl ++ columns_text columns.

(** An integer argument fits the engine's integers, when there is one. *)
Definition fits (v : option Z) : Prop :=
  forall n, v = Some n -> int64 n = true.


End Behaviour.

(** ** The claims in the words of the specification

    Presence as the specification counts it: a field is present as soon as
    it is supplied, whatever its value. *)

Module Spec.

Import Sqlite.

Definition supplied {A : Type} (v : option A) : nat :=
  match v with
  | Some _ => 1%nat
  | None => 0%nat
  end.

Definition text_constraint (v : option string) (x : string) : bool :=
  match v with
  | Some s => (x =? s)%string
  | None => true
  end.

Definition int_constraint (cmp : Z -> Z -> bool) (v : option Z) (x : Z) : bool :=
  match v with
  | Some n => cmp x n
  | None => true
  end.


(** The conjunction of the supplied filters of CalculateAveragePrice. *)
Definition matches (city state : option string) (beds : option Z) (r : listing) : bool :=
  text_constraint city (Sqlite.city r) && text_constraint state (Sqlite.state r)
  && int_constraint Z.eqb beds (Sqlite.beds r).

(** The value of a finite binary64 number, counted in units of [2^-1074]:
    every finite float is a whole number of them. *)
Definition units (f : spec_float) : option Z :=
  match f with
  | S754_zero _ => Some 0
  | S754_finite s m e => Some ((if s then Zneg m else Zpos m) * 2 ^ (e + 1074))
  | _ => None
  end.

(** Distance within maxDistanceMiles: a distance of [d] kilometres (the
    unit of the radius 6371) is at most [m] miles, a mile being 1.609344
    kilometres. The comparison is on the exact values of the two floats;
    NaN is within nothing and has nothing within it. *)
Definition within_miles (d m : float) : bool :=
  match Prim2SF d, Prim2SF m with
  | S754_nan, _ | _, S754_nan => false
  | _, S754_infinity false => true
  | S754_infinity true, _ => true
  | fd, fm =>
      match units fd, units fm with
      | Some a, Some b => 1000000 * a <=? 1609344 * b
      | _, _ => false
      end
  end.

End Spec.

(** ** Fixtures *)

Module Fixture.

Import Sqlite.

(** The 3-bed $480,000 and the 4-bed $520,000 Sacramento listings. *)
Definition three_bed : listing :=
  {| city := "Sacramento"; state := "CA"; price := 480000; beds := 3; baths := 2;
     latitude := 38.58%float; longitude := (-121.49)%float |}.

Definition four_bed : listing :=
  {| city := "Sacramento"; state := "CA"; price := 520000; beds := 4; baths := 3;
     latitude := 38.58%float; longitude := (-121.49)%float |}.

(** Two listings due north of the point (38.58, -121.49): one 2 miles
    away at $400,000, one 20 miles away at $300,000. *)
Definition reference_lat : float := 38.58%float.
Definition reference_lon : float := (-121.49)%float.

Definition near : listing :=
  {| city := "Sacramento"; state := "CA"; price := 400000; beds := 3; baths := 2;
     latitude := 38.608946%float; longitude := (-121.49)%float |}.

Definition far : listing :=
  {| city := "Woodland"; state := "CA"; price := 300000; beds := 3; baths := 2;
     latitude := 38.86946%float; longitude := (-121.49)%float |}.

(** A listing 4 miles due north of the same point. *)
Definition four_miles : listing :=
  {| city := "Sacramento"; state := "CA"; price := 350000; beds := 3; baths := 2;
     latitude := 38.637892%float; longitude := (-121.49)%float |}.

(** A table with a two-column primary key and no rows. *)
Definition order_lines : catalog_entry :=
  {| entry_type := "table"; entry_name := "order_lines";
     entry_columns :=
       [ {| cid := 0; name := "order_id"; type := "INTEGER"; notnull := 1;
            dflt_value := None; pk := 1 |};
         {| cid := 1; name := "line_no"; type := "INTEGER"; notnull := 1;
            dflt_value := None; pk := 2 |};
         {| cid := 2; name := "quantity"; type := "INTEGER"; notnull := 0;
            dflt_value := Some "1"; pk := 0 |} ];
     entry_rows := [] |}.

Definition database : catalog := [ order_lines ].

End Fixture.

(** ** The chat front end (app.py) *)

Module App.

(** The messages exchanged with the agent. *)
Inductive message : Type :=
  | SystemMessage (content : string)
  | HumanMessage (content : string)
  | AIMessage (content : string)
  | ToolMessage (content : string).

(** The values a [search_params] dictionary holds. *)
Inductive pyvalue : Type :=
  | PNone
  | PBool (b : bool)
  | PInt (n : Z)
  | PStr (s : string).

(** A dictionary with text keys, in insertion order. *)
Definition dict : Type := list (string * pyvalue).

(** [d.get(key, default)] *)
Fixpoint get (d : dict) (key : string) (default : pyvalue) : pyvalue :=
  match d with
  | [] => default
  | (k, v) :: d' => if (k =? key)%string then v else get d' key default
  end.

(** [if v:] *)
Definition truthy (v : pyvalue) : bool :=
  match v with
  | PNone => false
  | PBool b => b
  | PInt n => Py.truthy_int n
  | PStr s => Py.truthy_str s
  end.

(** [{v}] in an f-string. *)
Definition str (v : pyvalue) : string :=
  match v with
  | PNone => "None"
  | PBool true => "True"
  | PBool false => "False"
  | PInt n => NilZero.string_of_int (Z.to_int n)
  | PStr s => s
  end.

(** ['Required' if v else 'Optional'] *)
Definition required (v : pyvalue) : string :=
  if truthy v then "Required" else "Optional".

(** [if search_params and search_params.get('use_filters', False)] *)
Definition filters_on (search_params : option dict) : bool :=
  match search_params with
  | None => false
  | Some [] => false
  | Some d => truthy (get d "use_filters" (PBool false))
  end.

(** The text of the system message of [process_query]. *)
Definition full_query (query : string) (search_params : option dict) : string :=
  if filters_on search_params then
    let d := match search_params with Some d => d | None => [] end in
    nl ++
    "            Property Search Details:" ++ nl ++
    "            Location: " ++ str (get d "location" (PStr "Not Specified")) ++ nl ++
    "            Max Budget: $" ++ str (get d "max_price" (PStr "Unlimited")) ++ nl ++
    "            Min Bedrooms: " ++ str (get d "min_beds" (PStr "1")) ++ nl ++
    "            Min Bathrooms: " ++ str (get d "min_baths" (PStr "1")) ++ nl ++
    "            Mosque Proximity: " ++ required (get d "near_mosque" (PBool false)) ++ nl ++
    "            Halal Financing: " ++ required (get d "halal_finance" (PBool false)) ++ nl ++
    "            Property Type: " ++ str (get d "property_type" (PStr "Any")) ++ nl ++
    nl ++
    "            User Query: " ++ query ++ nl ++
    "            "
  else "User Query: " ++ query.

(** One entry of [st.session_state.messages]. *)
Record chat_message : Type := {
  role : string;
  content : string
}.

(** [HumanMessage(...) if msg["role"] == "user" else AIMessage(...)] *)
Definition to_message (msg : chat_message) : message :=
  if (role msg =? "user")%string then HumanMessage (content msg)
  else AIMessage (content msg).

(** The list under ["messages"] that [process_query] hands to the agent. *)
Definition agent_messages (conversation_history : list chat_message) (query : string)
  (search_params : option dict) : list message :=
  SystemMessage (full_query query search_params)
  :: (map to_message conversation_history ++ [HumanMessage query])%list.

(** What [agent.invoke] returns, as far as the front end reads it: a
    dictionary, with its ["messages"] entry when it has one, or something
    else. *)
Inductive response : Type :=
  | Dict (messages : option (list message))
  | NotDict.

(** [[msg.content for msg in messages if isinstance(msg, AIMessage)]] *)
Fixpoint ai_contents (messages : list message) : list string :=
  match messages with
  | [] => []
  | AIMessage c :: rest => c :: ai_contents rest
  | _ :: rest => ai_contents rest
  end.

(** A message that is not an [AIMessage]. *)
Definition not_ai (m : message) : Prop := forall c, m <> AIMessage c.

Section Agent.

(** Python's [str] on a response, and the agent: a call returns a response
    or raises an exception, known by its text [str(e)]. *)
Variable str_response : response -> string.
Variable invoke : list message -> response + string.

Definition process_agent_response (r : response) : string :=
  match r with
  | Dict (Some messages) =>
      match ai_contents messages with
      | [] => str_response r
      | ai_messages => last ai_messages ""
      end
  | _ => str_response r
  end.

Definition process_query (conversation_history : list chat_message) (query : string)
  (search_params : option dict) : string :=
  match invoke (agent_messages conversation_history query search_params) with
  | inl r => process_agent_response r
  | inr e => "🏠 Oops! Search encountered an issue: " ++ e
  end.

(** *** The session *)

Record session : Type := {
  messages : list chat_message;
  use_filters : bool
}.

Definition greeting : chat_message :=
  {| role := "ai";
     content := "As-salamu alaykum! I'm your Islamic Real Estate Assistant. How can I help you find your perfect halal home today?" |}.

(** The session of a first run. *)
Definition initial : session := {| messages := [greeting]; use_filters := false |}.

(** The values of the sidebar widgets. *)
Record widgets : Type := {
  location : string;
  min_beds : Z;
  min_baths : Z;
  max_price : Z;
  near_mosque : bool;
  halal_finance : bool;
  property_type : string
}.

Definition search_params_of (s : session) (w : widgets) : dict :=
  [ ("use_filters", PBool (use_filters s));
    ("max_price", PInt (max_price w));
    ("min_beds", PInt (min_beds w));
    ("min_baths", PInt (min_baths w));
    ("location", PStr (location w));
    ("near_mosque", PBool (near_mosque w));
    ("property_type",
     if negb (property_type w =? "Any")%string then PStr (property_type w) else PNone);
    ("halal_finance", PBool (halal_finance w)) ].

(** What a run of the script does to the session: the filter checkbox is
    set, the chat is cleared, or the form is sent. *)
Inductive event : Type :=
  | Checkbox (value : bool)
  | ClearChat
  | Send (user_input : string) (w : widgets).

(** The history the agent is given when the form is sent: the user's
    message is already appended. *)
Definition sent_history (s : session) (user_input : string) : list chat_message :=
  (messages s ++ [{| role := "user"; content := user_input |}])%list.

Definition step (s : session) (e : event) : session :=
  match e with
  | Checkbox value => {| messages := messages s; use_filters := value |}
  | ClearChat => {| messages := [greeting]; use_filters := use_filters s |}
  | Send user_input w =>
      if Py.truthy_str user_input then
        let history := sent_history s user_input in
        let ai_response :=
          process_query history user_input (Some (search_params_of s w)) in
        {| messages := (history ++ [{| role := "ai"; content := ai_response |}])%list;
           use_filters := use_filters s |}
      else s
  end.

Definition run (s : session) (events : list event) : session :=
  fold_left step events s.

End Agent.

(** No event of the list clears the chat. *)
Definition no_clear (events : list event) : Prop :=
  Forall (fun e => e <> ClearChat) events.

(** The number of texts sent, empty ones apart. *)
Fixpoint sent (events : list event) : nat :=
  match events with
  | [] => 0%nat
  | Send user_input _ :: rest =>
      ((if Py.truthy_str user_input then 1 else 0) + sent rest)%nat
  | _ :: rest => sent rest
  end.

(** An agent that answers every call with one AI message. *)
Definition echo (input : list message) : response + string :=
  inl (Dict (Some (input ++ [AIMessage "Here are three listings."])%list)).

(** An agent that is out of reach. *)
Definition unreachable (input : list message) : response + string :=
  inr "Connection refused".

Definition sidebar : widgets :=
  {| location := "Sacramento"; min_beds := 3; min_baths := 2; max_price := 500000;
     near_mosque := true; halal_finance := true; property_type := "Any" |}.

End App.

(** ** Reading the catalog *)

Module Catalog.

Import Sqlite RealEstateMCP Behaviour.

(** The entries [sqlite_master] lists as tables. *)
Definition tables (db : catalog) : list catalog_entry :=
  filter (fun e => (entry_type e =? "table")%string) db.

(** The column lines of a table in [get_database_schema]. *)
Definition schema_text (columns : list column_info) : string :=
  fold_right (fun column rest => schema_line column ++ rest) "" columns.

(** One text per table, one after the other. *)
Definition each_table (f : catalog_entry -> string) (db : catalog) : string :=
  fold_right (fun e rest => f e ++ rest) "" (tables db).

(** What [get_database_schema] writes for one table, and what
    [describe_columns] writes for it. *)
Definition schema_entry (e : catalog_entry) : string :=
  nl ++ "Table: " ++ entry_name e ++ nl ++ schema_text (entry_columns e).

Definition described_entry (e : catalog_entry) : string :=
  table_text (entry_name e) (entry_columns e).

(** A catalog with a table and a view over it. *)
Definition recent_lines : catalog_entry :=
  {| entry_type := "view"; entry_name := "recent_lines";
     entry_columns :=
       [ {| cid := 0; name := "order_id"; type := "INTEGER"; notnull := 0;
            dflt_value := None; pk := 0 |} ];
     entry_rows := [] |}.

Definition with_view : catalog := [ recent_lines; Fixture.order_lines ].

(** Every table has a bare identifier for name, and its name locates it. *)
Definition well_named (db : catalog) : Prop :=
  forall e, In e (tables db) ->
            bare_identifier (entry_name e) = true /\ locate db (entry_name e) = Some e.

End Catalog.

(** ** Reading the deals *)

Module Deals.

Import Sqlite RealEstateMCP Behaviour.

(** The rows [find_best_deals] orders and cuts: with both coordinates in
    use, the rows within the price, the bedrooms and the distance, each
    with its distance; otherwise the rows within the price and the
    bedrooms. *)
Definition candidates `{MathFunctions} (max_price min_beds : Z) (max_distance : float)
  (reference_lat reference_lon : option float) (table : list listing) : list output_row :=
  match reference_lat, reference_lon with
  | Some lat, Some lon =>
      if Py.truthy_float lat && Py.truthy_float lon
      then filter (fun o => deal_filter max_price min_beds o && within max_distance o)
                  (map (with_distance lat lon) table)
      else filter (deal_filter max_price min_beds) (map plain table)
  | _, _ => filter (deal_filter max_price min_beds) (map plain table)
  end.

End Deals.

(** * Properties *)

Import Sqlite RealEstateMCP Behaviour.

(** ** The model at work *)

Example listing_statement :
  query_listings_statement (Some "Sacramento") None (Some 3) (Some 500000)
  = {| query := "SELECT * FROM Sacramento WHERE city = ? AND beds >= ? AND price <= ?";
       params := [VText "Sacramento"; VInt 3; VInt 500000] |}.
Proof. reflexivity. Qed.

Example listing_statement_parsed :
  parse_select "SELECT * FROM Sacramento WHERE city = ? AND beds >= ? AND price <= ?"
  = Some {| sel_projection := Star;
            sel_where := [ {| pred_column := Col_city; pred_op := Op_eq |};
                           {| pred_column := Col_beds; pred_op := Op_ge |};
                           {| pred_column := Col_price; pred_op := Op_le |} ];
            sel_order_by_price := false;
            sel_limit := None |}.
Proof. vm_compute. reflexivity. Qed.

Example distance_statement_parsed :
  parse_select
    (query (find_best_deals_statement 600000 2 5 (Some 38.58%float) (Some (-121.49)%float)))
  = Some {| sel_projection := Star_with_distance;
            sel_where := [ {| pred_column := Col_price; pred_op := Op_le |};
                           {| pred_column := Col_beds; pred_op := Op_ge |};
                           {| pred_column := Col_distance; pred_op := Op_le |} ];
            sel_order_by_price := true;
            sel_limit := Some 10%nat |}.
Proof. vm_compute. reflexivity. Qed.

Example deals_out_of_range :
  find_best_deals (H := Libm.math) (2 ^ 63) 3 10 None None [Fixture.near]
  = Raised (ViaPandas overflow).
Proof. vm_compute. reflexivity. Qed.

Example floats_of_integers :
  Py.float_of_Z 480000 = 480000%float /\ Py.float_of_Z (-7) = (-7)%float
  /\ Py.float_of_Z 0 = 0%float
  /\ Py.float_of_Z (2 ^ 53 + 1) = 9007199254740992%float.
Proof. repeat split; vm_compute; reflexivity. Qed.

(** The running total rounds at each addition: after 2^53 the two prices
    of 1 are lost, one after the other, and the mean falls one short of
    the mean of the exact sum. *)
Example running_total_rounds :
  mean [ {| city := "A"; state := "CA"; price := 2 ^ 53; beds := 1; baths := 1;
            latitude := 0; longitude := 0 |};
         {| city := "A"; state := "CA"; price := 1; beds := 1; baths := 1;
            latitude := 0; longitude := 0 |};
         {| city := "A"; state := "CA"; price := 1; beds := 1; baths := 1;
            latitude := 0; longitude := 0 |} ]
  = 3002399751580330.5%float
  /\ (Py.float_of_Z (2 ^ 53 + 1 + 1) / 3 = 3002399751580331.5)%float.
Proof. split; vm_compute; reflexivity. Qed.

Example round2_ties :
  Py.round2 2.675 = 2.67%float /\ Py.round2 0.125 = 0.12%float
  /\ Py.round2 (-0.001) = (-0)%float /\ Py.round2 480000 = 480000%float.
Proof. repeat split; vm_compute; reflexivity. Qed.

Example fixture_distances :
  distance_expression (H := Libm.math)
    (VReal Fixture.reference_lat) (VReal Fixture.reference_lon) (VReal Fixture.reference_lat)
    Fixture.near
  = VReal 3.2186483478021879%float
  /\ distance_expression (H := Libm.math)
       (VReal Fixture.reference_lat) (VReal Fixture.reference_lon) (VReal Fixture.reference_lat)
       Fixture.far
     = VReal 32.186483466635508%float.
Proof. split; vm_compute; reflexivity. Qed.

(** The distance is a number of kilometres and is compared with
    [max_distance] as it is: the listing 4 miles (6.44 km) from the
    reference point is within 5 miles and is not returned for a
    [max_distance] of 5, which the function documents as miles. *)
Example four_miles_away_is_left_out :
  row_distance
    (with_distance (H := Libm.math) Fixture.reference_lat Fixture.reference_lon
       Fixture.four_miles)
  = Some (VReal 6.4372966937669132%float)
  /\ Spec.within_miles 6.4372966937669132 5 = true
  /\ find_best_deals (H := Libm.math) 600000 2 5
       (Some Fixture.reference_lat) (Some Fixture.reference_lon) [Fixture.four_miles]
     = Returned [].
Proof. repeat split; vm_compute; reflexivity. Qed.

Example schema_of_the_fixture :
  get_database_schema Fixture.database
  = Returned ("Database Schema:" ++ nl ++ nl ++
              "Table: order_lines" ++ nl ++
              "  order_id (INTEGER)" ++ nl ++
              "  line_no (INTEGER)" ++ nl ++
              "  quantity (INTEGER)" ++ nl).
Proof. vm_compute. reflexivity. Qed.

(** ** The engine's comparisons *)

Lemma holds_le_int (a b : Z) : holds_op Op_le (a ?= b) = (a <=? b).
Proof. unfold Z.leb. now destruct (a ?= b). Qed.

Lemma holds_ge_int (a b : Z) : holds_op Op_ge (a ?= b) = (a >=? b).
Proof. unfold Z.geb. now destruct (a ?= b). Qed.

Lemma holds_eq_int (a b : Z) : holds_op Op_eq (a ?= b) = (a =? b).
Proof.
  destruct (Z.eqb_spec a b) as [->|Hne].
  - now rewrite Z.compare_refl.
  - destruct (a ?= b) eqn:E; try reflexivity.
    apply Z.compare_eq in E. contradiction.
Qed.

Lemma string_compare_refl (s : string) : String.compare s s = Eq.
Proof.
  pose proof (String.compare_antisym s s) as E.
  destruct (String.compare s s); simpl in E; congruence.
Qed.

Lemma holds_eq_text (x s : string) :
  holds_op Op_eq (String.compare x s) = (x =? s)%string.
Proof.
  destruct (String.eqb_spec x s) as [->|Hne].
  - now rewrite string_compare_refl.
  - destruct (String.compare x s) eqn:E; try reflexivity.
    apply String.compare_eq_iff in E. contradiction.
Qed.

Lemma filter_map_commute {A B : Type} (f : A -> B) (g : B -> bool) (l : list A) :
  filter g (map f l) = map f (filter (fun a => g (f a)) l).
Proof.
  induction l as [|a l IH]; simpl; [reflexivity|].
  rewrite IH. now destruct (g (f a)).
Qed.

(** ** Statements of the listing search and of the average *)

(** Replaces the parse of a closed statement text by its value. *)
Ltac parse_closed :=
  match goal with
  | |- context [parse_select ?q] =>
      let r := eval vm_compute in (parse_select q) in
      replace (parse_select q) with r by (vm_compute; reflexivity)
  end.

(** Unfolds the run of a parsed statement down to its filter. *)
Ltac run_parsed :=
  unfold run_select;
  cbn [bind sel_projection sel_where sel_order_by_price sel_limit
       projection_placeholders mentions_distance existsb pred_column map List.length
       Nat.eqb Nat.add negb orb andb apply_limit apply_order skipn].

Ltac split_guards :=
  repeat match goal with
         | |- context [Py.truthy_str ?x] => destruct (Py.truthy_str x)
         | |- context [Py.truthy_int ?x] => destruct (Py.truthy_int x)
         end.

Lemma query_listings_rows `{MathFunctions}
  (c s : option string) (b p : option Z) (table : list listing) :
  query_listings c s b p table
  = if forallb storable (params (query_listings_statement c s b p))
    then Returned (map plain (filter (listing_filter c s b p) table))
    else Raised (ViaPandas overflow).
Proof.
  unfold query_listings, read_sql_query, execute, query_listings_statement,
    query_listings_conditions, listing_filter, text_filter, int_filter.
  destruct c as [c|], s as [s|], b as [b|], p as [p|]; cbn [Py.truthy];
    split_guards;
    cbn [append_if fst snd app add_where query params of_str of_int];
    parse_closed; run_parsed; cbn [bind_parameter];
    match goal with
    | |- context [forallb storable ?l] => destruct (forallb storable l)
    end; cbn [negb]; try reflexivity;
    rewrite filter_map_commute; do 2 f_equal;
    apply filter_ext; intro r;
    cbn [eval_where eval_predicate column_value pred_column pred_op project row_listing
         compare_values];
    rewrite ?holds_eq_text, ?holds_ge_int, ?holds_le_int, ?andb_true_r, ?andb_assoc;
    reflexivity.
Qed.

Lemma calculate_average_price_aggregate `{MathFunctions}
  (c s : option string) (b : option Z) (table : list listing) :
  let st := calculate_average_price_statement c s b in
  execute (query st) (params st) table
  = if forallb storable (params st)
    then let kept := map plain (filter (average_filter c s b) table) in
         Returned (Aggregate (avg kept) (Z.of_nat (List.length kept)))
    else Raised overflow.
Proof.
  unfold execute, calculate_average_price_statement,
    calculate_average_price_conditions, average_filter, text_filter, int_filter.
  destruct c as [c|], s as [s|], b as [b|]; cbn [Py.truthy];
    split_guards;
    cbn [append_if fst snd app add_where query params of_str of_int];
    parse_closed; run_parsed; cbn [bind_parameter];
    match goal with
    | |- context [forallb storable ?l] => destruct (forallb storable l)
    end; cbn [negb]; try reflexivity;
    rewrite filter_map_commute;
    match goal with
    | |- Returned (Aggregate (avg (map _ (filter ?f _))) _) =
         Returned (Aggregate (avg (map _ (filter ?g _))) _) =>
        rewrite (filter_ext f g); [reflexivity|]
    end;
    intro r;
    cbn [eval_where eval_predicate column_value pred_column pred_op project row_listing
         compare_values];
    rewrite ?holds_eq_text, ?holds_eq_int, ?andb_true_r, ?andb_assoc;
    reflexivity.
Qed.

(** Arguments that fit the engine's integers are bound without error. *)
Lemma query_listings_params_storable (c s : option string) (b p : option Z) :
  fits b -> fits p ->
  forallb storable (params (query_listings_statement c s b p)) = true.
Proof.
  intros Hb Hp. unfold query_listings_statement, query_listings_conditions.
  destruct c as [c|], s as [s|], b as [b|], p as [p|]; cbn [Py.truthy];
    split_guards;
    cbn [append_if fst snd app params of_str of_int forallb storable andb];
    rewrite ?(Hb _ eq_refl), ?(Hp _ eq_refl); reflexivity.
Qed.

Lemma calculate_average_price_params_storable (c s : option string) (b : option Z) :
  fits b ->
  forallb storable (params (calculate_average_price_statement c s b)) = true.
Proof.
  intros Hb. unfold calculate_average_price_statement, calculate_average_price_conditions.
  destruct c as [c|], s as [s|], b as [b|]; cbn [Py.truthy];
    split_guards;
    cbn [append_if fst snd app params of_str of_int forallb storable andb];
    rewrite ?(Hb _ eq_refl); reflexivity.
Qed.

Lemma query_listings_fits `{MathFunctions}
  (c s : option string) (b p : option Z) (table : list listing) :
  fits b -> fits p ->
  query_listings c s b p table
  = Returned (map plain (filter (listing_filter c s b p) table)).
Proof.
  intros Hb Hp. rewrite query_listings_rows.
  now rewrite (query_listings_params_storable c s b p Hb Hp).
Qed.

Lemma fits_None : fits None.
Proof. intros n E. discriminate E. Qed.

Lemma fits_Some (n : Z) : int64 n = true -> fits (Some n).
Proof. intros Hn m E. now inversion E; subst. Qed.

(** The number of generated predicates, of placeholders and of bound
    values of the two filtered statements. *)
Lemma query_listings_counts (c s : option string) (b p : option Z) :
  let n := (used Py.truthy_str c + used Py.truthy_str s
            + used Py.truthy_int b + used Py.truthy_int p)%nat in
  let st := query_listings_statement c s b p in
  predicate_count (query st) = Some n
  /\ predicates (query st) = Some (in_use (fields_in_use c s b p) listing_predicates)
  /\ placeholders (query st) = n
  /\ List.length (params st) = n
  /\ (n = 0%nat <-> query st = "SELECT * FROM Sacramento").
Proof.
  unfold used, fields_in_use, query_listings_statement, query_listings_conditions.
  destruct c as [c|], s as [s|], b as [b|], p as [p|]; cbn [Py.truthy];
    repeat match goal with
           | |- context [Py.truthy_str ?x] => destruct (Py.truthy_str x)
           | |- context [Py.truthy_int ?x] => destruct (Py.truthy_int x)
           end;
    cbn [append_if fst snd app add_where query params of_str of_int];
    (split; [vm_compute; reflexivity|]);
    (split; [vm_compute; reflexivity|]);
    (split; [vm_compute; reflexivity|]);
    (split; [reflexivity|]);
    (split; [intro E; try reflexivity; discriminate E
            | intro E; try reflexivity; vm_compute in E; discriminate E]).
Qed.

Lemma calculate_average_price_counts (c s : option string) (b : option Z) :
  let n := (used Py.truthy_str c + used Py.truthy_str s + used Py.truthy_int b)%nat in
  let st := calculate_average_price_statement c s b in
  predicate_count (query st) = Some n
  /\ predicates (query st) = Some (in_use (fields_in_use c s b None) average_predicates)
  /\ placeholders (query st) = n
  /\ List.length (params st) = n
  /\ (n = 0%nat <->
      query st = "SELECT AVG(price) as avg_price, COUNT(*) as total_listings FROM Sacramento").
Proof.
  unfold used, fields_in_use, calculate_average_price_statement,
    calculate_average_price_conditions.
  destruct c as [c|], s as [s|], b as [b|]; cbn [Py.truthy];
    repeat match goal with
           | |- context [Py.truthy_str ?x] => destruct (Py.truthy_str x)
           | |- context [Py.truthy_int ?x] => destruct (Py.truthy_int x)
           end;
    cbn [append_if fst snd app add_where query params of_str of_int];
    (split; [vm_compute; reflexivity|]);
    (split; [vm_compute; reflexivity|]);
    (split; [vm_compute; reflexivity|]);
    (split; [reflexivity|]);
    (split; [intro E; try reflexivity; discriminate E
            | intro E; try reflexivity; vm_compute in E; discriminate E]).
Qed.

(** ** Filters as propositions *)

Lemma text_filter_true (v : option string) (x : string) :
  text_filter v x = true <-> text_holds v x.
Proof.
  unfold text_filter, text_holds, Py.truthy_str. destruct v as [s|].
  - destruct (String.eqb_spec s "") as [->|Hs]; simpl.
    + split; [intros _ s' E Hne; inversion E; subst; now elim Hne | reflexivity].
    + destruct (String.eqb_spec x s) as [->|Hx]; split; try reflexivity.
      * intros _ s' E _. now inversion E.
      * discriminate.
      * intro Hall. elim Hx. now apply Hall.
  - split; [intros _ s' E; discriminate E | reflexivity].
Qed.

Lemma int_filter_true (cmp : Z -> Z -> bool) (R : Z -> Z -> Prop)
  (HR : forall a b, cmp a b = true <-> R a b) (v : option Z) (x : Z) :
  int_filter cmp v x = true <-> int_holds R v x.
Proof.
  unfold int_filter, int_holds, Py.truthy_int. destruct v as [n|].
  - destruct (Z.eqb_spec n 0) as [->|Hn]; simpl.
    + split; [intros _ n' E Hne; inversion E; subst; now elim Hne | reflexivity].
    + rewrite HR. split.
      * intros Hx n' E _. now inversion E; subst.
      * intro Hall. now apply Hall.
  - split; [intros _ n' E; discriminate E | reflexivity].
Qed.

Lemma geb_ge (a b : Z) : (a >=? b) = true <-> a >= b.
Proof. rewrite Z.geb_le. lia. Qed.

Lemma listing_filter_true (c s : option string) (b p : option Z) (r : listing) :
  listing_filter c s b p r = true <-> listing_holds c s b p r.
Proof.
  unfold listing_filter, listing_holds.
  rewrite !andb_true_iff, !text_filter_true.
  rewrite (int_filter_true Z.geb Z.ge geb_ge), (int_filter_true Z.leb Z.le Z.leb_le).
  tauto.
Qed.

Lemma average_filter_true (c s : option string) (b : option Z) (r : listing) :
  average_filter c s b r = true <-> average_holds c s b r.
Proof.
  unfold average_filter, average_holds.
  rewrite !andb_true_iff, !text_filter_true.
  rewrite (int_filter_true Z.eqb eq Z.eqb_eq).
  tauto.
Qed.

Lemma used_str_zero (v : option string) :
  used Py.truthy_str v = 0%nat <-> v = None \/ v = Some "".
Proof.
  unfold used, Py.truthy, Py.truthy_str. destruct v as [s|].
  - destruct (String.eqb_spec s "") as [->|Hs]; simpl; split; auto; try discriminate.
    intros [E|E]; [discriminate E | inversion E; contradiction].
  - split; auto.
Qed.

Lemma used_int_zero (v : option Z) :
  used Py.truthy_int v = 0%nat <-> v = None \/ v = Some 0.
Proof.
  unfold used, Py.truthy, Py.truthy_int. destruct v as [n|].
  - destruct (Z.eqb_spec n 0) as [->|Hn]; simpl; split; auto; try discriminate.
    intros [E|E]; [discriminate E | inversion E; contradiction].
  - split; auto.
Qed.

(** ** Rounding to hundredths *)

Lemma round_half_even_nearest (n d : Z) :
  0 < d -> 2 * Z.abs (n - Py.round_half_even n d * d) <= d.
Proof.
  intro Hd. unfold Py.round_half_even.
  pose proof (Z.div_mod n d ltac:(lia)) as E.
  pose proof (Z.mod_pos_bound n d Hd) as B.
  destruct (Z.compare_spec (2 * (n mod d)) d) as [C|C|C];
    [destruct (Z.even (n / d))| |]; nia.
Qed.

Lemma round2_hundredths (x : float) (s : bool) (m : positive) (e : Z) :
  Prim2SF x = S754_finite s m e -> e < 0 ->
  Py.round2 x = Py.hundredths s (Py.cents m e).
Proof.
  intros E He. unfold Py.round2. rewrite E.
  destruct (Z.leb_spec 0 e); [lia | reflexivity].
Qed.

Lemma round_half_even_closest (n d j : Z) :
  0 < d ->
  Z.abs (n - Py.round_half_even n d * d) <= Z.abs (n - j * d).
Proof.
  intro Hd. pose proof (round_half_even_nearest n d Hd) as N.
  set (k := Py.round_half_even n d) in *.
  assert (C : j = k \/ j <= k - 1 \/ k + 1 <= j) by lia.
  destruct C as [->|[C|C]]; [lia | |].
  - assert (d <= (k - j) * d) by nia.
    replace (n - j * d) with (n - k * d + (k - j) * d) by ring. lia.
  - assert (d <= (j - k) * d) by nia.
    replace (n - j * d) with (n - k * d - (j - k) * d) by ring. lia.
Qed.

Lemma round_half_even_tie (n d : Z) :
  0 < d ->
  2 * Z.abs (n - Py.round_half_even n d * d) = d ->
  Z.even (Py.round_half_even n d) = true.
Proof.
  intros Hd. unfold Py.round_half_even.
  pose proof (Z.div_mod n d ltac:(lia)) as E.
  pose proof (Z.mod_pos_bound n d Hd) as B.
  destruct (Z.compare_spec (2 * (n mod d)) d) as [C|C|C].
  - destruct (Z.even (n / d)) eqn:Ev; [intros _; exact Ev|].
    intros _. replace (n / d + 1) with (Z.succ (n / d)) by lia.
    now rewrite Z.even_succ, <- Z.negb_even, Ev.
  - intro T. nia.
  - intro T. nia.
Qed.

Lemma round_half_even_nonneg (n d : Z) : 0 <= n -> 0 < d -> 0 <= Py.round_half_even n d.
Proof.
  intros Hn Hd. unfold Py.round_half_even.
  pose proof (Z.div_pos n d Hn Hd).
  destruct (2 * (n mod d) ?= d); [destruct (Z.even (n / d))| |]; lia.
Qed.

(** [round(x, 2)] on a float with fractional bits: the hundredths [k] are
    the integer nearest to a hundred times the magnitude, and the even one
    of the two when the magnitude lies halfway. *)
Lemma round2_half_even (x : float) (s : bool) (m : positive) (e : Z) :
  Prim2SF x = S754_finite s m e -> e < 0 ->
  exists k,
    Py.round2 x = Py.hundredths s k
    /\ 0 <= k
    /\ (forall j, Z.abs (Zpos m * 100 - k * 2 ^ (- e)) <= Z.abs (Zpos m * 100 - j * 2 ^ (- e)))
    /\ (2 * Z.abs (Zpos m * 100 - k * 2 ^ (- e)) = 2 ^ (- e) -> Z.even k = true).
Proof.
  intros E He. assert (Hd : 0 < 2 ^ (- e)) by (apply Z.pow_pos_nonneg; lia).
  exists (Py.cents m e). split; [now apply round2_hundredths|].
  unfold Py.cents. split; [apply round_half_even_nonneg; lia|]. split.
  - intro j. now apply round_half_even_closest.
  - now apply round_half_even_tie.
Qed.

Lemma round2_whole (x : float) :
  (forall s m e, Prim2SF x = S754_finite s m e -> 0 <= e) -> Py.round2 x = x.
Proof.
  intro W. unfold Py.round2. destruct (Prim2SF x) as [| | |s m e] eqn:E; try reflexivity.
  destruct (Z.leb_spec 0 e) as [|Hlt]; [reflexivity|].
  specialize (W s m e eq_refl). lia.
Qed.

(** * The filtered statements *)

(** C1, as stated, fails: a city supplied as the empty string and a
    maximum price supplied as zero are two supplied fields, and the listing
    search generates no predicate for them. *)
Lemma empty_and_zero_fields_generate_no_predicate :
  predicate_count (query (query_listings_statement (Some "") None None (Some 0)))
  <> Some (Spec.supplied (Some "") + Spec.supplied (@None string)
           + Spec.supplied (@None Z) + Spec.supplied (Some 0))%nat.
Proof. vm_compute. discriminate. Qed.

(** C1, amended: for every combination of arguments, the statement of
    [query_listings] (city, state, min_beds, max_price) and the statement
    of [calculate_average_price] (city, state, beds) carry exactly one
    AND-joined predicate (the predicate of that field), one placeholder
    and one bound value per field in use, and are the unconditioned
    statement exactly when no field is in use. A field is in use when it
    is supplied with a non-empty text or a non-zero number: it is out of
    use exactly when it is not supplied or supplied as the empty text or
    as zero. *)
Theorem predicates_follow_fields_in_use
  (city state : option string) (min_beds max_price beds : option Z) :
  (let n := (used Py.truthy_str city + used Py.truthy_str state
             + used Py.truthy_int min_beds + used Py.truthy_int max_price)%nat in
   let st := query_listings_statement city state min_beds max_price in
   predicate_count (query st) = Some n
   /\ predicates (query st)
      = Some (in_use (fields_in_use city state min_beds max_price) listing_predicates)
   /\ placeholders (query st) = n
   /\ List.length (params st) = n
   /\ (n = 0%nat <-> query st = "SELECT * FROM Sacramento"))
  /\ (let n := (used Py.truthy_str city + used Py.truthy_str state
                + used Py.truthy_int beds)%nat in
      let st := calculate_average_price_statement city state beds in
      predicate_count (query st) = Some n
      /\ predicates (query st)
         = Some (in_use (fields_in_use city state beds None) average_predicates)
      /\ placeholders (query st) = n
      /\ List.length (params st) = n
      /\ (n = 0%nat <->
          query st
          = "SELECT AVG(price) as avg_price, COUNT(*) as total_listings FROM Sacramento"))
  /\ (forall v, used Py.truthy_str v = 0%nat <-> v = None \/ v = Some "")
  /\ (forall v, used Py.truthy_int v = 0%nat <-> v = None \/ v = Some 0).
Proof.
  split; [apply query_listings_counts|].
  split; [apply calculate_average_price_counts|].
  split; [apply used_str_zero | apply used_int_zero].
Qed.




(** * The average price *)

Lemma calculate_average_price_value `{MathFunctions}
  (c s : option string) (b : option Z) (table : list listing) :
  fits b ->
  calculate_average_price c s b table
  = Returned
      match filter (average_filter c s b) table with
      | [] => {| average_price := None; total_listings := 0 |}
      | r :: l =>
          {| average_price := Some (Py.round2 (mean (r :: l)));
             total_listings := Z.of_nat (List.length (r :: l)) |}
      end.
Proof.
  intro Hb. unfold calculate_average_price.
  rewrite calculate_average_price_aggregate.
  rewrite (calculate_average_price_params_storable c s b Hb). cbv zeta.
  destruct (filter (average_filter c s b) table) as [|r l]; [reflexivity|].
  unfold mean. cbn [bind avg map List.length]. now rewrite length_map.
Qed.

(** C7, as stated, fails: with [beds = 0] supplied, no listing of the
    fixture matches the filter (none has 0 bedrooms), and the function
    reports the average of the whole table and a count of 2. *)
Lemma zero_beds_averages_the_whole_table :
  filter (Spec.matches None None (Some 0)) [Fixture.three_bed; Fixture.four_bed] = []
  /\ calculate_average_price (H := Libm.math) None None (Some 0)
       [Fixture.three_bed; Fixture.four_bed]
     = Returned {| average_price := Some 500000%float; total_listings := 2 |}.
Proof. split; vm_compute; reflexivity. Qed.

(** C7, amended: the rows that match are those satisfying the conjunction
    of the filters in use (city, state, beds supplied with a non-empty text
    or a non-zero number). For a [beds] that fits the engine's integers:
    when no row matches, [calculate_average_price] returns the result
    [{average_price: None, total_listings: 0}]; when at least one row
    matches, it returns the number of matching rows and their mean price
    (the engine's AVG) rounded to two decimals. The rounding of a mean
    with fractional bits, of magnitude [m * 2^e], is the float nearest to
    [k / 100], where [k] is the integer nearest to [100 * m * 2^e] and,
    when two integers are as near, the even one; a mean without
    fractional bits is returned as it is. *)
Theorem calculate_average_price_result `{MathFunctions}
  (city state : option string) (beds : option Z) (table : list listing) :
  fits beds ->
  let kept := filter (average_filter city state beds) table in
  (forall r, In r kept <-> In r table /\ average_holds city state beds r)
  /\ (kept = [] ->
      calculate_average_price city state beds table
      = Returned {| average_price := None; total_listings := 0 |})
  /\ (kept <> [] ->
      calculate_average_price city state beds table
      = Returned {| average_price := Some (Py.round2 (mean kept));
                    total_listings := Z.of_nat (List.length kept) |})
  /\ (forall x s m e,
        Prim2SF x = S754_finite s m e -> e < 0 ->
        exists k,
          Py.round2 x = Py.hundredths s k
          /\ 0 <= k
          /\ (forall j,
                Z.abs (Zpos m * 100 - k * 2 ^ (- e)) <= Z.abs (Zpos m * 100 - j * 2 ^ (- e)))
          /\ (2 * Z.abs (Zpos m * 100 - k * 2 ^ (- e)) = 2 ^ (- e) -> Z.even k = true))
  /\ (forall x, (forall s m e, Prim2SF x = S754_finite s m e -> 0 <= e) -> Py.round2 x = x).
Proof.
  intros Hb kept. split; [|split; [|split; [|split]]].
  - intro r. unfold kept. rewrite filter_In, average_filter_true. tauto.
  - intro E. rewrite calculate_average_price_value by assumption. fold kept. now rewrite E.
  - intro E. rewrite calculate_average_price_value by assumption. fold kept.
    destruct kept; [contradiction | reflexivity].
  - intros x s m e Ex He. now apply round2_half_even.
  - exact round2_whole.
Qed.

Lemma calculate_average_price_result_example :
  calculate_average_price (H := Libm.math) None (Some "CA") None
    [Fixture.three_bed; Fixture.four_bed; Fixture.far]
  = Returned {| average_price := Some 433333.33%float; total_listings := 3 |}
  /\ calculate_average_price (H := Libm.math) (Some "Davis") None (Some 3)
       [Fixture.three_bed; Fixture.four_bed; Fixture.far]
     = Returned {| average_price := None; total_listings := 0 |}.
Proof.
  split.
  - destruct (calculate_average_price_result (H := Libm.math) None (Some "CA") None
                [Fixture.three_bed; Fixture.four_bed; Fixture.far] fits_None)
      as (_ & _ & Some_rows & _).
    rewrite Some_rows; [vm_compute; reflexivity | discriminate].
  - destruct (calculate_average_price_result (H := Libm.math) (Some "Davis") None (Some 3)
                [Fixture.three_bed; Fixture.four_bed; Fixture.far] (fits_Some 3 eq_refl))
      as (_ & No_row & _).
    apply No_row. reflexivity.
Defined.

(** * The best deals *)

(** ** Comparison of reals *)

Lemma SFcompare_nan_r (f : spec_float) : SFcompare f S754_nan = None.
Proof. now destruct f. Qed.

Lemma SFeqb_refl_not_nan (f : spec_float) : SFeqb f f = false -> f = S754_nan.
Proof.
  unfold SFeqb. destruct f as [s|s| |s m e]; simpl; try discriminate; try reflexivity.
  - now destruct s.
  - rewrite Z.compare_refl, Pos.compare_cont_refl. now destruct s.
Qed.

Lemma is_nan_Prim2SF (x : float) : PrimFloat.is_nan x = true -> Prim2SF x = S754_nan.
Proof.
  unfold PrimFloat.is_nan. rewrite eqb_spec. intro E.
  apply SFeqb_refl_not_nan. now destruct (SFeqb (Prim2SF x) (Prim2SF x)).
Qed.

(** [distance <= ?] with the placeholder bound to a float is the binary64
    comparison, false on NaN. *)
Lemma le_bound_real (d m : float) :
  match compare_values (VReal d) (bind_parameter (VReal m)) with
  | Some c => holds_op Op_le c
  | None => false
  end = (d <=? m)%float.
Proof.
  unfold bind_parameter. destruct (PrimFloat.is_nan m) eqn:N.
  - simpl. rewrite leb_spec, (is_nan_Prim2SF m N). unfold SFleb.
    now rewrite SFcompare_nan_r.
  - simpl. rewrite compare_spec, leb_spec. unfold SFleb, flatten_cmp_opt.
    now destruct (SFcompare (Prim2SF d) (Prim2SF m)) as [[| |]|].
Qed.




(** ** The exact value of a float *)






(** ** Ordering and limiting *)

Lemma insert_by_price_Forall (P : output_row -> Prop) (o : output_row) (l : list output_row) :
  P o -> Forall P l -> Forall P (insert_by_price o l).
Proof.
  intros Ho Hl. induction Hl as [|h t Hh Ht IH]; simpl.
  - now constructor.
  - destruct (price (row_listing o) <=? price (row_listing h)); repeat constructor; auto.
Qed.

Lemma insert_by_price_sorted (o : output_row) (l : list output_row) :
  StronglySorted price_le l -> StronglySorted price_le (insert_by_price o l).
Proof.
  induction 1 as [|h t Hs IH Hh]; simpl.
  - repeat constructor.
  - destruct (Z.leb_spec (price (row_listing o)) (price (row_listing h))) as [Hle|Hgt].
    + constructor; [now constructor|]. constructor; [exact Hle|].
      eapply Forall_impl; [|exact Hh]. unfold price_le. intros a Ha. lia.
    + constructor; [exact IH|]. apply insert_by_price_Forall; [|exact Hh].
      unfold price_le. lia.
Qed.

Lemma order_by_price_sorted (l : list output_row) :
  StronglySorted price_le (order_by_price l).
Proof.
  induction l as [|o l IH]; simpl; [constructor | now apply insert_by_price_sorted].
Qed.

Lemma insert_by_price_perm (o : output_row) (l : list output_row) :
  Permutation (insert_by_price o l) (o :: l).
Proof.
  induction l as [|h t IH]; simpl; [reflexivity|].
  destruct (price (row_listing o) <=? price (row_listing h)); [reflexivity|].
  rewrite IH. apply perm_swap.
Qed.

Lemma order_by_price_perm (l : list output_row) : Permutation (order_by_price l) l.
Proof.
  induction l as [|o l IH]; simpl; [reflexivity|].
  rewrite insert_by_price_perm. now constructor.
Qed.

Lemma firstn_Forall {A : Type} (P : A -> Prop) (n : nat) (l : list A) :
  Forall P l -> Forall P (firstn n l).
Proof.
  intro H. revert n. induction H as [|a l Ha Hl IH]; intros [|n]; simpl; constructor; auto.
Qed.


Lemma firstn_sorted {A : Type} (R : A -> A -> Prop) (n : nat) (l : list A) :
  StronglySorted R l -> StronglySorted R (firstn n l).
Proof.
  intro H. revert n. induction H as [|a l Hs IH Ha]; intros [|n]; simpl; constructor; auto.
  now apply firstn_Forall.
Qed.

(** ** The two shapes *)

Lemma simple_deals_rows `{MathFunctions} (mp mb : Z) (table : list listing) :
  read_sql_query
    {| query := simple_deals_query ++ " ORDER BY price ASC LIMIT 10";
       params := [VInt mp; VInt mb] |} table
  = if int64 mp && int64 mb
    then Returned (firstn 10 (order_by_price (filter (deal_filter mp mb) (map plain table))))
    else Raised (ViaPandas overflow).
Proof.
  unfold read_sql_query, execute. cbn [query params].
  parse_closed. run_parsed. cbn [bind_parameter forallb storable].
  rewrite andb_true_r. destruct (int64 mp && int64 mb); cbn [negb]; [|reflexivity].
  do 3 f_equal.
  match goal with
  | |- filter ?f (map ?g _) = filter ?f' (map ?g' _) =>
      change g with g'; apply filter_ext
  end.
  intro o. unfold deal_filter.
  cbn [eval_where eval_predicate column_value pred_column pred_op compare_values].
  now rewrite holds_le_int, holds_ge_int, andb_true_r.
Qed.

Lemma distance_value_cases `{MathFunctions} (p1 p2 p3 : value) (r : listing) :
  distance_expression p1 p2 p3 r = VNull
  \/ exists d, distance_expression p1 p2 p3 r = VReal d.
Proof.
  unfold distance_expression, real_result.
  destruct (to_real p1), (to_real p2), (to_real p3); auto.
  match goal with |- context [if ?b then _ else _] => destruct b end; eauto.
Qed.

Lemma storable_bound_real (x : float) : storable (bind_parameter (VReal x)) = true.
Proof. unfold bind_parameter. now destruct (PrimFloat.is_nan x). Qed.

Lemma distance_deals_rows `{MathFunctions} (mp mb : Z) (md lat lon : float)
  (table : list listing) :
  read_sql_query
    {| query := distance_deals_query ++ " ORDER BY price ASC LIMIT 10";
       params := [VReal lat; VReal lon; VReal lat; VInt mp; VInt mb; VReal md] |} table
  = if int64 mp && int64 mb
    then Returned
           (firstn 10
              (order_by_price
                 (filter (fun o => deal_filter mp mb o && within md o)
                         (map (with_distance lat lon) table))))
    else Raised (ViaPandas overflow).
Proof.
  unfold read_sql_query, execute. cbn [query params].
  parse_closed. run_parsed. cbn [forallb].
  rewrite !storable_bound_real. cbn [bind_parameter storable andb].
  rewrite andb_true_r. destruct (int64 mp && int64 mb); cbn [negb]; [|reflexivity].
  do 3 f_equal.
  match goal with
  | |- filter ?f (map ?g _) = filter ?f' (map ?g' _) =>
      change g with g'; apply filter_ext_in
  end.
  intros o Ho. apply in_map_iff in Ho. destruct Ho as (r & <- & _).
  unfold deal_filter, within, with_distance.
  cbn [eval_where eval_predicate column_value pred_column pred_op row_listing row_distance].
  rewrite andb_true_r, andb_assoc.
  replace (match compare_values (VInt (price r)) (VInt mp) with
           | Some c => holds_op Op_le c
           | None => false
           end) with (price r <=? mp) by (symmetry; apply holds_le_int).
  replace (match compare_values (VInt (beds r)) (VInt mb) with
           | Some c => holds_op Op_ge c
           | None => false
           end) with (beds r >=? mb) by (symmetry; apply holds_ge_int).
  f_equal.
  destruct (distance_value_cases (bind_parameter (VReal lat)) (bind_parameter (VReal lon))
              (bind_parameter (VReal lat)) r) as [E|[d E]]; rewrite E.
  - reflexivity.
  - apply le_bound_real.
Qed.

Lemma find_best_deals_simple `{MathFunctions} (mp mb : Z) (md : float)
  (lat lon : option float) (table : list listing) :
  Py.truthy Py.truthy_float lat && Py.truthy Py.truthy_float lon = false ->
  find_best_deals mp mb md lat lon table
  = if int64 mp && int64 mb
    then Returned (firstn 10 (order_by_price (filter (deal_filter mp mb) (map plain table))))
    else Raised (ViaPandas overflow).
Proof.
  intro E. unfold find_best_deals, find_best_deals_statement. rewrite E.
  apply simple_deals_rows.
Qed.

Lemma find_best_deals_distance `{MathFunctions} (mp mb : Z) (md lat lon : float)
  (table : list listing) :
  Py.truthy_float lat = true -> Py.truthy_float lon = true ->
  find_best_deals mp mb md (Some lat) (Some lon) table
  = if int64 mp && int64 mb
    then Returned
           (firstn 10
              (order_by_price
                 (filter (fun o => deal_filter mp mb o && within md o)
                         (map (with_distance lat lon) table))))
    else Raised (ViaPandas overflow).
Proof.
  intros Hlat Hlon. unfold find_best_deals, find_best_deals_statement.
  cbn [Py.truthy]. rewrite Hlat, Hlon. apply distance_deals_rows.
Qed.

(** C4: whatever the arguments (reference point or not) and the table,
    a result of [find_best_deals] has at most 10 rows, in ascending order
    of price. There is a result exactly when [max_price] and [min_beds]
    fit the engine's integers; the call raises the driver's overflow
    error otherwise. *)
Theorem find_best_deals_bounded_sorted `{MathFunctions} (max_price min_beds : Z)
  (max_distance : float) (reference_lat reference_lon : option float)
  (table : list listing) :
  match
    find_best_deals max_price min_beds max_distance reference_lat reference_lon table
  with
  | Returned rows =>
      int64 max_price && int64 min_beds = true
      /\ (List.length rows <= 10)%nat
      /\ StronglySorted price_le rows
  | Raised e => int64 max_price && int64 min_beds = false /\ e = ViaPandas overflow
  | Unmodelled => False
  end.
Proof.
  destruct (Py.truthy Py.truthy_float reference_lat
            && Py.truthy Py.truthy_float reference_lon) eqn:E.
  - destruct reference_lat as [lat|], reference_lon as [lon|];
      try (simpl in E; rewrite ?andb_false_r in E; discriminate E).
    apply andb_true_iff in E. destruct E as [Hlat Hlon].
    rewrite find_best_deals_distance by assumption.
    destruct (int64 max_price && int64 min_beds); [|now split].
    split; [reflexivity|]. split.
    + apply firstn_le_length.
    + apply firstn_sorted, order_by_price_sorted.
  - rewrite find_best_deals_simple by assumption.
    destruct (int64 max_price && int64 min_beds); [|now split].
    split; [reflexivity|]. split.
    + apply firstn_le_length.
    + apply firstn_sorted, order_by_price_sorted.
Qed.

(** C6: with exactly one of [reference_lat] and [reference_lon] supplied,
    [find_best_deals] does what the same call does with neither: it
    applies the price and bedroom filter alone, orders by price and
    returns the first 10 rows. *)
Theorem partial_reference_point_is_ignored `{MathFunctions} (max_price min_beds : Z)
  (max_distance : float) (table : list listing) :
  (forall lat,
     find_best_deals max_price min_beds max_distance (Some lat) None table
     = find_best_deals max_price min_beds max_distance None None table)
  /\ (forall lon,
        find_best_deals max_price min_beds max_distance None (Some lon) table
        = find_best_deals max_price min_beds max_distance None None table)
  /\ (int64 max_price && int64 min_beds = true ->
      find_best_deals max_price min_beds max_distance None None table
      = Returned
          (firstn 10
             (order_by_price (filter (deal_filter max_price min_beds) (map plain table))))).
Proof.
  split; [|split].
  - intro lat. rewrite !find_best_deals_simple; auto. apply andb_false_r.
  - intro lon. rewrite !find_best_deals_simple; auto.
  - intro Hfit. rewrite find_best_deals_simple by reflexivity. now rewrite Hfit.
Qed.

(** C10: with both coordinates supplied and [reference_lat] or
    [reference_lon] equal to 0.0, [find_best_deals] does what the call
    without reference point does: no distance is computed and
    [max_distance] is not applied. *)
Theorem zero_coordinate_is_no_reference_point `{MathFunctions} (max_price min_beds : Z)
  (max_distance : float) (table : list listing) :
  (forall lon,
     find_best_deals max_price min_beds max_distance (Some 0%float) (Some lon) table
     = find_best_deals max_price min_beds max_distance None None table)
  /\ (forall lat,
        find_best_deals max_price min_beds max_distance (Some lat) (Some 0%float) table
        = find_best_deals max_price min_beds max_distance None None table)
  /\ (int64 max_price && int64 min_beds = true ->
      find_best_deals max_price min_beds max_distance None None table
      = Returned
          (firstn 10
             (order_by_price (filter (deal_filter max_price min_beds) (map plain table))))).
Proof.
  assert (Z0 : Py.truthy_float 0 = false) by reflexivity.
  split; [|split].
  - intro lon. rewrite !find_best_deals_simple; auto.
  - intro lat. rewrite !find_best_deals_simple; auto.
    cbn [Py.truthy]. rewrite Z0. apply andb_false_r.
  - intro Hfit. rewrite find_best_deals_simple by reflexivity. now rewrite Hfit.
Qed.




(** * The catalog functions *)

(** ** Text *)

Lemma string_app_assoc (a b c : string) : ((a ++ b) ++ c = a ++ (b ++ c))%string.
Proof. induction a as [|x a IH]; simpl; [reflexivity | now rewrite IH]. Qed.

Lemma string_app_empty_r (a : string) : (a ++ "")%string = a.
Proof. induction a as [|x a IH]; simpl; [reflexivity | now rewrite IH]. Qed.

Lemma string_length_app (a b : string) :
  String.length (a ++ b) = (String.length a + String.length b)%nat.
Proof. induction a as [|x a IH]; simpl; [reflexivity | now rewrite IH]. Qed.

Lemma strip_prefix_app (p s : string) : strip_prefix p (p ++ s) = Some s.
Proof.
  induction p as [|a p IH]; simpl; [reflexivity|].
  now rewrite Ascii.eqb_refl.
Qed.

Lemma strip_suffix_app (suf t : string) : strip_suffix suf (t ++ suf) = Some t.
Proof.
  induction t as [|c t IH].
  - simpl. destruct suf; simpl; [reflexivity|].
    now rewrite Ascii.eqb_refl, String.eqb_refl.
  - cbn [append strip_suffix].
    destruct (String.eqb_spec (String c (t ++ suf)) suf) as [E|_].
    + apply (f_equal String.length) in E. simpl in E.
      rewrite string_length_app in E. lia.
    + now rewrite IH.
Qed.

Lemma table_info_argument_statement (t : string) :
  table_info_argument (query (table_info_statement t)) = Some t.
Proof.
  unfold table_info_argument, table_info_statement. cbn [query].
  rewrite strip_prefix_app. apply strip_suffix_app.
Qed.

Lemma pragma_table_info_located (db : catalog) (t : string) :
  bare_identifier t = true ->
  pragma_table_info (query (table_info_statement t)) db
  = Returned match locate db t with
             | Some e => entry_columns e
             | None => []
             end.
Proof.
  intro Ht. unfold pragma_table_info.
  now rewrite table_info_argument_statement, Ht.
Qed.

Lemma fold_left_descriptions (f : column_info -> string) (l : list column_info) (d : string) :
  fold_left (fun d column => d ++ f column) l d
  = (d ++ fold_right (fun column rest => f column ++ rest) "" l)%string.
Proof.
  revert d. induction l as [|c l IH]; intro d; simpl.
  - now rewrite string_app_empty_r.
  - now rewrite IH, string_app_assoc.
Qed.

Lemma bare_identifier_truthy (t : string) :
  bare_identifier t = true -> Py.truthy_str t = true.
Proof. destruct t; [discriminate | reflexivity]. Qed.

Lemma describe_columns_located (db : catalog) (t : string) :
  bare_identifier t = true ->
  describe_columns (Some t) db
  = Returned ("Column Descriptions:" ++ nl
              ++ table_text t match locate db t with
                              | Some e => entry_columns e
                              | None => []
                              end).
Proof.
  intro Ht. unfold describe_columns. cbn [Py.truthy].
  rewrite (bare_identifier_truthy t Ht). cbn [negb bind describe_tables].
  rewrite (pragma_table_info_located db t Ht). cbn [bind].
  rewrite fold_left_descriptions. unfold table_text, columns_text.
  now rewrite !string_app_assoc.
Qed.

Lemma describe_columns_statement (db : catalog) (t : string) :
  Py.truthy_str t = true ->
  describe_columns (Some t) db
  = (columns <- pragma_table_info ("PRAGMA table_info(" ++ t ++ ");") db ;;
     Returned ("Column Descriptions:" ++ nl ++ table_text t columns)).
Proof.
  intro Ht. unfold describe_columns. cbn [Py.truthy]. rewrite Ht.
  cbn [negb bind describe_tables table_info_statement query].
  destruct (pragma_table_info ("PRAGMA table_info(" ++ t ++ ");") db) as [columns| |];
    cbn [bind]; try reflexivity.
  rewrite fold_left_descriptions. unfold table_text, columns_text.
  now rewrite !string_app_assoc.
Qed.

Lemma table_info_statement_injective (t t' : string) :
  query (table_info_statement t) = query (table_info_statement t') -> t = t'.
Proof.
  intro E. apply (f_equal table_info_argument) in E.
  rewrite !table_info_argument_statement in E. now inversion E.
Qed.

(** The texts of the listing statements depend on which fields are in
    use, not on their values. *)
Lemma query_listings_text_by_use (c s c' s' : option string) (b p b' p' : option Z) :
  fields_in_use c s b p = fields_in_use c' s' b' p' ->
  query (query_listings_statement c s b p) = query (query_listings_statement c' s' b' p').
Proof.
  unfold fields_in_use. intro E. injection E as E1 E2 E3 E4.
  unfold query_listings_statement, query_listings_conditions.
  rewrite E1, E2, E3, E4.
  destruct (Py.truthy Py.truthy_str c'), (Py.truthy Py.truthy_str s'),
    (Py.truthy Py.truthy_int b'), (Py.truthy Py.truthy_int p'); reflexivity.
Qed.

Lemma calculate_average_price_text_by_use (c s c' s' : option string) (b b' : option Z) :
  fields_in_use c s b None = fields_in_use c' s' b' None ->
  query (calculate_average_price_statement c s b)
  = query (calculate_average_price_statement c' s' b').
Proof.
  unfold fields_in_use. intro E. injection E as E1 E2 E3.
  unfold calculate_average_price_statement, calculate_average_price_conditions.
  rewrite E1, E2, E3.
  destruct (Py.truthy Py.truthy_str c'), (Py.truthy Py.truthy_str s'),
    (Py.truthy Py.truthy_int b'); reflexivity.
Qed.

Lemma find_best_deals_text (mp mb : Z) (md : float) (lat lon : option float) :
  query (find_best_deals_statement mp mb md lat lon)
  = ((if Py.truthy Py.truthy_float lat && Py.truthy Py.truthy_float lon
      then distance_deals_query else simple_deals_query)
     ++ " ORDER BY price ASC LIMIT 10")%string.
Proof.
  unfold find_best_deals_statement.
  now destruct (Py.truthy Py.truthy_float lat && Py.truthy Py.truthy_float lon).
Qed.

(** C3, at the failing input: [describe_columns] called with the table
    name [Sacramento); DROP TABLE Sacramento; --] hands the engine a
    statement whose text contains that name and whose parameter list is
    empty. For every non-empty name the statement it executes is the name
    spliced between [PRAGMA table_info(] and [);], so that distinct names
    give distinct texts; the statements of [query_listings],
    [calculate_average_price] and [find_best_deals] have texts that do not
    vary with the values of their arguments. *)
Theorem describe_columns_splices_the_table_name :
  table_info_statement "Sacramento); DROP TABLE Sacramento; --"
  = {| query := "PRAGMA table_info(Sacramento); DROP TABLE Sacramento; --);";
       params := [] |}
  /\ (forall db t,
        Py.truthy_str t = true ->
        describe_columns (Some t) db
        = (columns <- pragma_table_info ("PRAGMA table_info(" ++ t ++ ");") db ;;
           Returned ("Column Descriptions:" ++ nl ++ table_text t columns)))
  /\ (forall t t',
        query (table_info_statement t) = query (table_info_statement t') -> t = t')
  /\ (forall c s c' s' b p b' p',
        fields_in_use c s b p = fields_in_use c' s' b' p' ->
        query (query_listings_statement c s b p)
        = query (query_listings_statement c' s' b' p'))
  /\ (forall c s c' s' b b',
        fields_in_use c s b None = fields_in_use c' s' b' None ->
        query (calculate_average_price_statement c s b)
        = query (calculate_average_price_statement c' s' b'))
  /\ (forall mp mb md lat lon,
        query (find_best_deals_statement mp mb md lat lon)
        = ((if Py.truthy Py.truthy_float lat && Py.truthy Py.truthy_float lon
            then distance_deals_query else simple_deals_query)
           ++ " ORDER BY price ASC LIMIT 10")%string).
Proof.
  split; [reflexivity|].
  split; [exact describe_columns_statement|].
  split; [exact table_info_statement_injective|].
  split; [exact query_listings_text_by_use|].
  split; [exact calculate_average_price_text_by_use | exact find_best_deals_text].
Qed.

(** C8, as stated, fails: for the name [Missing], which locates nothing in
    the catalog of the fixture, [describe_columns] raises no error and
    returns a description: the heading and the title of the table, with no
    column. *)
Lemma missing_table_is_described :
  locate Fixture.database "Missing" = None
  /\ describe_columns (Some "Missing") Fixture.database
     = Returned ("Column Descriptions:" ++ nl ++ nl ++ "Table: Missing" ++ nl).
Proof. split; vm_compute; reflexivity. Qed.

Lemma columns_text_contains (columns : list column_info) (column : column_info) :
  In column columns ->
  exists before after,
    columns_text columns = (before ++ column_description column ++ after)%string.
Proof.
  induction columns as [|c l IH]; [intros []|intros [E|Hin]].
  - subst c. exists "", (columns_text l). reflexivity.
  - destruct (IH Hin) as (before & after & E).
    exists (column_description c ++ before)%string, after.
    cbn [columns_text fold_right]. fold (columns_text l).
    now rewrite E, string_app_assoc.
Qed.

(** C8, amended: for a table name that is a plain identifier (a letter or
    underscore, then letters, digits, underscores or dollars, and no SQL
    keyword), [describe_columns] does not fail. When the name locates
    nothing in the catalog it returns the heading and the title of the
    table with no column entry; when it is the name of an existing table
    it returns the heading, the title and one entry per column of the
    table, whatever the rows of the table (none, in particular). Other
    names are spliced into the statement text unquoted and are outside
    this statement. *)
Theorem describe_columns_by_table_name (db : catalog) (t : string) :
  bare_identifier t = true ->
  (locate db t = None ->
   describe_columns (Some t) db
   = Returned ("Column Descriptions:" ++ nl ++ nl ++ "Table: " ++ t ++ nl))
  /\ (forall e,
        locate db t = Some e ->
        describe_columns (Some t) db
        = Returned ("Column Descriptions:" ++ nl ++ table_text t (entry_columns e))
        /\ forall column,
             In column (entry_columns e) ->
             exists before after,
               columns_text (entry_columns e)
               = (before ++ column_description column ++ after)%string).
Proof.
  intro Ht. split.
  - intro E. rewrite (describe_columns_located db t Ht), E.
    unfold table_text, columns_text. cbn [fold_right].
    now rewrite string_app_empty_r.
  - intros e E. split.
    + now rewrite (describe_columns_located db t Ht), E.
    + apply columns_text_contains.
Qed.

Lemma describe_columns_by_table_name_example :
  entry_rows Fixture.order_lines = []
  /\ describe_columns (Some "order_lines") Fixture.database
     = Returned ("Column Descriptions:" ++ nl
                 ++ table_text "order_lines" (entry_columns Fixture.order_lines)).
Proof.
  split; [reflexivity|].
  apply (describe_columns_by_table_name Fixture.database "order_lines" eq_refl).
  reflexivity.
Defined.

(** C9, at the failing input: [line_no] is the second column of the
    primary key of [order_lines] (its [pk] is 2), and [describe_columns]
    reports it with [Primary Key: No]. *)
Theorem second_key_column_is_reported_outside_the_key :
  (exists column,
     In column (entry_columns Fixture.order_lines)
     /\ name column = "line_no" /\ pk column = 2)
  /\ describe_columns (Some "order_lines") Fixture.database
     = Returned
         ("Column Descriptions:" ++ nl ++ nl ++
          "Table: order_lines" ++ nl ++
          "  - order_id (INTEGER)" ++ nl ++
          "    Nullable: No" ++ nl ++
          "    Default Value: None" ++ nl ++
          "    Primary Key: Yes" ++ nl ++
          "  - line_no (INTEGER)" ++ nl ++
          "    Nullable: No" ++ nl ++
          "    Default Value: None" ++ nl ++
          "    Primary Key: No" ++ nl ++
          "  - quantity (INTEGER)" ++ nl ++
          "    Nullable: Yes" ++ nl ++
          "    Default Value: 1" ++ nl ++
          "    Primary Key: No" ++ nl).
Proof.
  split.
  - eexists. split; [right; left; reflexivity|]. split; reflexivity.
  - vm_compute. reflexivity.
Qed.

(** * Further properties *)

(** ** The catalog functions over every table *)

Lemma schema_tables_entries (db : catalog) (l : list catalog_entry) (d : string) :
  (forall e, In e l ->
             bare_identifier (entry_name e) = true /\ locate db (entry_name e) = Some e) ->
  schema_tables (map entry_name l) d db
  = Returned (d ++ fold_right (fun e rest => Catalog.schema_entry e ++ rest) "" l).
Proof.
  revert d. induction l as [|e l IH]; intros d Hl.
  - simpl. now rewrite string_app_empty_r.
  - destruct (Hl e (or_introl eq_refl)) as [Hbare Hloc].
    cbn [map schema_tables].
    rewrite (pragma_table_info_located db _ Hbare), Hloc. cbn [bind].
    rewrite IH by (intros e' He'; apply Hl; now right).
    rewrite fold_left_descriptions. cbn [fold_right].
    unfold Catalog.schema_entry, Catalog.schema_text.
    now rewrite !string_app_assoc.
Qed.

Lemma describe_tables_entries (db : catalog) (l : list catalog_entry) (d : string) :
  (forall e, In e l ->
             bare_identifier (entry_name e) = true /\ locate db (entry_name e) = Some e) ->
  describe_tables (map entry_name l) d db
  = Returned (d ++ fold_right (fun e rest => Catalog.described_entry e ++ rest) "" l).
Proof.
  revert d. induction l as [|e l IH]; intros d Hl.
  - simpl. now rewrite string_app_empty_r.
  - destruct (Hl e (or_introl eq_refl)) as [Hbare Hloc].
    cbn [map describe_tables].
    rewrite (pragma_table_info_located db _ Hbare), Hloc. cbn [bind].
    rewrite IH by (intros e' He'; apply Hl; now right).
    rewrite fold_left_descriptions. cbn [fold_right].
    unfold Catalog.described_entry, table_text, columns_text.
    now rewrite !string_app_assoc.
Qed.

Lemma table_names_tables (db : catalog) : table_names db = map entry_name (Catalog.tables db).
Proof. reflexivity. Qed.

Lemma with_view_well_named : Catalog.well_named Catalog.with_view.
Proof.
  intros e He. cbn in He. destruct He as [<-|[]]. split; vm_compute; reflexivity.
Qed.

(** X1: over a catalog whose tables have bare names that locate them,
    [get_database_schema] writes the heading and then, for each entry that
    [sqlite_master] lists as a table and for no other entry, in catalog
    order, the title of the table and one line per column. *)
Theorem get_database_schema_lists_tables (db : catalog) :
  Catalog.well_named db ->
  get_database_schema db
  = Returned ("Database Schema:" ++ nl ++ Catalog.each_table Catalog.schema_entry db).
Proof.
  intro Hdb. unfold get_database_schema, select_table_names.
  rewrite String.eqb_refl. cbn [bind]. rewrite table_names_tables.
  rewrite (schema_tables_entries db (Catalog.tables db) _ Hdb).
  unfold Catalog.each_table. now rewrite string_app_assoc.
Qed.

Lemma get_database_schema_lists_tables_example :
  get_database_schema Catalog.with_view
  = Returned ("Database Schema:" ++ nl ++ nl ++
              "Table: order_lines" ++ nl ++
              "  order_id (INTEGER)" ++ nl ++
              "  line_no (INTEGER)" ++ nl ++
              "  quantity (INTEGER)" ++ nl).
Proof.
  rewrite (get_database_schema_lists_tables Catalog.with_view with_view_well_named).
  vm_compute. reflexivity.
Defined.

(** X2: over a catalog whose tables have plain identifier names, each
    name locating its table, [describe_columns] called without a table
    name, or with the empty name, describes every table of the catalog in
    order, and what it writes for a table is what it writes when called
    with the name of that table. *)
Theorem describe_columns_every_table (db : catalog) :
  Catalog.well_named db ->
  describe_columns None db
  = Returned ("Column Descriptions:" ++ nl ++ Catalog.each_table Catalog.described_entry db)
  /\ describe_columns (Some "") db = describe_columns None db
  /\ forall e,
       In e (Catalog.tables db) ->
       describe_columns (Some (entry_name e)) db
       = Returned ("Column Descriptions:" ++ nl ++ Catalog.described_entry e).
Proof.
  intro Hdb. split; [|split].
  - unfold describe_columns, select_table_names. cbn [Py.truthy negb].
    rewrite String.eqb_refl. cbn [bind]. rewrite table_names_tables.
    rewrite (describe_tables_entries db (Catalog.tables db) _ Hdb).
    unfold Catalog.each_table. now rewrite string_app_assoc.
  - reflexivity.
  - intros e He. destruct (Hdb e He) as [Hbare Hloc].
    now rewrite (describe_columns_located db _ Hbare), Hloc.
Qed.

Lemma describe_columns_every_table_example :
  describe_columns None Catalog.with_view
  = describe_columns (Some "order_lines") Catalog.with_view.
Proof.
  destruct (describe_columns_every_table Catalog.with_view with_view_well_named)
    as (All & _ & Each).
  pose proof (Each Fixture.order_lines (or_introl eq_refl)) as One.
  change (entry_name Fixture.order_lines) with "order_lines" in One.
  rewrite All, One. vm_compute. reflexivity.
Defined.

(** ** The listing search and the average together *)



Lemma filter_length_le {A : Type} (f g : A -> bool) (l : list A) :
  (forall x, f x = true -> g x = true) ->
  (List.length (filter f l) <= List.length (filter g l))%nat.
Proof.
  intro Hfg. induction l as [|a l IH]; simpl; [lia|].
  destruct (f a) eqn:Fa.
  - rewrite (Hfg a Fa). simpl. lia.
  - destruct (g a); simpl; lia.
Qed.

Lemma average_filter_listing (c s : option string) (b : option Z) (r : listing) :
  average_filter c s b r = true -> listing_filter c s b None r = true.
Proof.
  rewrite average_filter_true, listing_filter_true.
  unfold average_holds, listing_holds, int_holds.
  intros (Hc & Hs & Hb). repeat split; auto.
  - intros n E Hn. rewrite (Hb n E Hn). lia.
  - intros n E. discriminate E.
Qed.

Lemma average_filter_unused (c s : option string) (b : option Z) :
  Py.truthy Py.truthy_int b = false ->
  forall r, average_filter c s b r = listing_filter c s b None r.
Proof.
  intros Hb r. unfold average_filter, listing_filter, int_filter.
  destruct b as [n|]; cbn [Py.truthy] in Hb; rewrite ?Hb; now rewrite ?andb_true_r.
Qed.

(** X3: for the same city and state, [calculate_average_price] with a
    number of bedrooms counts at most as many listings as [query_listings]
    returns with that number as minimum; when the number of bedrooms is
    not in use (absent or 0) the count is the number of rows returned and
    the average is [None] exactly when no row is returned. *)
Theorem average_counts_the_listings `{MathFunctions}
  (city state : option string) (beds : option Z) (table : list listing) :
  fits beds ->
  exists st rows,
    calculate_average_price city state beds table = Returned st
    /\ query_listings city state beds None table = Returned rows
    /\ total_listings st <= Z.of_nat (List.length rows)
    /\ (Py.truthy Py.truthy_int beds = false ->
        total_listings st = Z.of_nat (List.length rows)
        /\ (average_price st = None <-> rows = [])).
Proof.
  intro Hb. do 2 eexists.
  split; [now apply calculate_average_price_value|].
  split; [apply query_listings_fits; [assumption | apply fits_None]|].
  rewrite length_map. split.
  - pose proof (filter_length_le (average_filter city state beds)
                  (listing_filter city state beds None) table
                  (average_filter_listing city state beds)) as Hle.
    destruct (filter (average_filter city state beds) table) as [|r l];
      cbn [total_listings]; lia.
  - intro Hu.
    rewrite (filter_ext _ _ (average_filter_unused city state beds Hu)).
    destruct (filter (listing_filter city state beds None) table) as [|r l];
      cbn [total_listings average_price map]; split; try reflexivity;
      split; intro E; try reflexivity; discriminate E.
Qed.

Lemma average_counts_the_listings_example :
  exists st rows,
    calculate_average_price (H := Libm.math) (Some "Sacramento") None (Some 3)
      [Fixture.three_bed; Fixture.four_bed] = Returned st
    /\ query_listings (H := Libm.math) (Some "Sacramento") None (Some 3) None
         [Fixture.three_bed; Fixture.four_bed] = Returned rows
    /\ total_listings st = 1 /\ List.length rows = 2%nat.
Proof.
  destruct (average_counts_the_listings (H := Libm.math) (Some "Sacramento") None (Some 3)
              [Fixture.three_bed; Fixture.four_bed] (fits_Some 3 eq_refl))
    as (st & rows & Hst & Hrows & _).
  exists st, rows. split; [exact Hst|]. split; [exact Hrows|].
  vm_compute in Hst, Hrows. inversion Hst. inversion Hrows. split; reflexivity.
Defined.



Lemma raised_price_filter (c s : option string) (b : option Z) (p p' : Z) (r : listing) :
  p <> 0 -> p <= p' ->
  listing_filter c s b (Some p) r = true -> listing_filter c s b (Some p') r = true.
Proof.
  intros Hp Hle. rewrite !listing_filter_true. unfold listing_holds, int_holds.
  intros (Hc & Hs & Hb & Hprice). repeat split; auto.
  intros n E _. inversion E; subst n.
  specialize (Hprice p eq_refl Hp). lia.
Qed.

(** X5: raising a maximum price that is not 0 never loses a row of
    [query_listings]: every row returned under the lower maximum is
    returned under the higher one (a maximum of 0 is no maximum at all,
    and is excluded as the lower one). *)
Theorem raising_max_price_keeps_rows `{MathFunctions}
  (city state : option string) (min_beds : option Z) (p p' : Z) (table : list listing) :
  fits min_beds -> int64 p = true -> int64 p' = true -> p <> 0 -> p <= p' ->
  exists rows rows',
    query_listings city state min_beds (Some p) table = Returned rows
    /\ query_listings city state min_beds (Some p') table = Returned rows'
    /\ incl rows rows'.
Proof.
  intros Hb Hp Hp' Hnz Hle. do 2 eexists.
  split; [apply query_listings_fits; [assumption | now apply fits_Some]|].
  split; [apply query_listings_fits; [assumption | now apply fits_Some]|].
  apply incl_map. intros r Hr. apply filter_In in Hr. destruct Hr as [Hin Hf].
  apply filter_In. split; [assumption|]. now apply (raised_price_filter _ _ _ p p').
Qed.

Lemma raising_max_price_keeps_rows_example :
  exists rows rows',
    query_listings (H := Libm.math) None None None (Some 500000)
      [Fixture.three_bed; Fixture.four_bed] = Returned rows
    /\ query_listings (H := Libm.math) None None None (Some 600000)
         [Fixture.three_bed; Fixture.four_bed] = Returned rows'
    /\ incl rows rows'.
Proof.
  apply (raising_max_price_keeps_rows (H := Libm.math) None None None 500000 600000
           [Fixture.three_bed; Fixture.four_bed] fits_None eq_refl eq_refl);
    [discriminate | lia].
Defined.

(** ** The best deals among the candidates *)

Lemma find_best_deals_candidates `{MathFunctions} (mp mb : Z) (md : float)
  (lat lon : option float) (table : list listing) :
  int64 mp && int64 mb = true ->
  find_best_deals mp mb md lat lon table
  = Returned (firstn 10 (order_by_price (Deals.candidates mp mb md lat lon table))).
Proof.
  intro Hfit. unfold Deals.candidates.
  destruct lat as [lat|], lon as [lon|];
    try (rewrite find_best_deals_simple, Hfit; [reflexivity|];
         cbn [Py.truthy]; now rewrite ?andb_false_r).
  destruct (Py.truthy_float lat) eqn:Hlat, (Py.truthy_float lon) eqn:Hlon; cbn [andb];
    try (rewrite find_best_deals_simple, Hfit; [reflexivity|];
         cbn [Py.truthy]; now rewrite Hlat, Hlon).
  now rewrite find_best_deals_distance, Hfit.
Qed.

Lemma sorted_app_le {A : Type} (R : A -> A -> Prop) (l1 l2 : list A) :
  StronglySorted R (l1 ++ l2) -> forall a b, In a l1 -> In b l2 -> R a b.
Proof.
  induction l1 as [|x l1 IH]; intros Hs a b Ha Hb; [contradiction|].
  simpl in Hs. inversion Hs as [|? ? Hs' Hx]; subst.
  destruct Ha as [<-|Ha].
  - rewrite Forall_forall in Hx. apply Hx, in_or_app. now right.
  - now apply IH.
Qed.

(** X6: when [max_price] and [min_beds] fit the engine's integers,
    [find_best_deals] returns the cheapest candidates: its rows together
    with the candidates it leaves out are the candidates, it leaves none
    out unless there are more than 10, and no row it leaves out is cheaper
    than a row it returns. *)
Theorem best_deals_are_the_cheapest `{MathFunctions} (max_price min_beds : Z)
  (max_distance : float) (reference_lat reference_lon : option float)
  (table : list listing) :
  int64 max_price && int64 min_beds = true ->
  let candidates :=
    Deals.candidates max_price min_beds max_distance reference_lat reference_lon table in
  exists rows rest,
    find_best_deals max_price min_beds max_distance reference_lat reference_lon table
    = Returned rows
    /\ Permutation (rows ++ rest) candidates
    /\ List.length rows = Nat.min 10 (List.length candidates)
    /\ forall o o', In o rows -> In o' rest -> price_le o o'.
Proof.
  intros Hfit candidates.
  exists (firstn 10 (order_by_price candidates)), (skipn 10 (order_by_price candidates)).
  split; [now apply find_best_deals_candidates|].
  split; [rewrite firstn_skipn; apply order_by_price_perm|].
  split.
  - rewrite length_firstn. f_equal. apply Permutation_length, order_by_price_perm.
  - apply sorted_app_le. rewrite firstn_skipn. apply order_by_price_sorted.
Qed.

Lemma best_deals_are_the_cheapest_example :
  exists rows rest,
    find_best_deals (H := Libm.math) 600000 2 5 None None
      [Fixture.three_bed; Fixture.far; Fixture.four_bed; Fixture.near] = Returned rows
    /\ Permutation (rows ++ rest)
         (Deals.candidates (H := Libm.math) 600000 2 5 None None
            [Fixture.three_bed; Fixture.far; Fixture.four_bed; Fixture.near])
    /\ List.length rows = 4%nat.
Proof.
  destruct (best_deals_are_the_cheapest (H := Libm.math) 600000 2 5 None None
              [Fixture.three_bed; Fixture.far; Fixture.four_bed; Fixture.near] eq_refl)
    as (rows & rest & Hrows & Hperm & Hlen & _).
  exists rows, rest. split; [exact Hrows|]. split; [exact Hperm|]. exact Hlen.
Defined.

Lemma deal_filter_listing (mp mb : Z) (r : listing) :
  mp <> 0 -> mb <> 0 ->
  deal_filter mp mb (plain r) = listing_filter None None (Some mb) (Some mp) r.
Proof.
  intros Hp Hb. unfold deal_filter, listing_filter, text_filter, int_filter, Py.truthy_int.
  destruct (Z.eqb_spec mp 0) as [|_]; [contradiction|].
  destruct (Z.eqb_spec mb 0) as [|_]; [contradiction|].
  cbn [negb andb plain row_listing]. apply andb_comm.
Qed.

(** X7: with a maximum price and a minimum number of bedrooms that are
    not 0, [find_best_deals] without reference point returns the rows that
    [query_listings] returns for that minimum and that maximum, ordered by
    price and cut to the first 10. *)
Theorem best_deals_of_the_listing_search `{MathFunctions} (max_price min_beds : Z)
  (max_distance : float) (table : list listing) :
  int64 max_price = true -> int64 min_beds = true ->
  max_price <> 0 -> min_beds <> 0 ->
  exists rows,
    query_listings None None (Some min_beds) (Some max_price) table = Returned rows
    /\ find_best_deals max_price min_beds max_distance None None table
       = Returned (firstn 10 (order_by_price rows)).
Proof.
  intros Hp Hb Hpz Hbz. eexists.
  split; [apply query_listings_fits; now apply fits_Some|].
  rewrite find_best_deals_candidates by (now rewrite Hp, Hb).
  cbn [Deals.candidates]. do 3 f_equal.
  rewrite filter_map_commute. f_equal.
  apply filter_ext. intro r. now apply deal_filter_listing.
Qed.

Lemma best_deals_of_the_listing_search_example :
  exists rows,
    query_listings (H := Libm.math) None None (Some 3) (Some 500000)
      [Fixture.three_bed; Fixture.far; Fixture.four_bed] = Returned rows
    /\ find_best_deals (H := Libm.math) 500000 3 10 None None
         [Fixture.three_bed; Fixture.far; Fixture.four_bed]
       = Returned (firstn 10 (order_by_price rows)).
Proof.
  apply (best_deals_of_the_listing_search (H := Libm.math) 500000 3 10
           [Fixture.three_bed; Fixture.far; Fixture.four_bed] eq_refl eq_refl);
    discriminate.
Defined.

(** ** Not-a-number arguments *)

Lemma filter_nothing {A : Type} (f : A -> bool) (l : list A) :
  (forall x, In x l -> f x = false) -> filter f l = [].
Proof.
  induction l as [|a l IH]; intro Hf; simpl; [reflexivity|].
  rewrite (Hf a (or_introl eq_refl)). apply IH. intros x Hx. apply Hf. now right.
Qed.

Lemma bind_nan (x : float) : PrimFloat.is_nan x = true -> bind_parameter (VReal x) = VNull.
Proof. intro N. unfold bind_parameter. now rewrite N. Qed.

Lemma leb_nan_r (d m : float) : PrimFloat.is_nan m = true -> (d <=? m)%float = false.
Proof.
  intro N. rewrite leb_spec, (is_nan_Prim2SF m N). unfold SFleb.
  now rewrite SFcompare_nan_r.
Qed.

Lemma nan_is_truthy (x : float) : PrimFloat.is_nan x = true -> Py.truthy_float x = true.
Proof.
  intro N. unfold Py.truthy_float. rewrite eqb_spec, (is_nan_Prim2SF x N). reflexivity.
Qed.

Lemma within_nan `{MathFunctions} (md lat lon : float) (r : listing) :
  PrimFloat.is_nan lat || PrimFloat.is_nan lon || PrimFloat.is_nan md = true ->
  within md (with_distance lat lon r) = false.
Proof.
  intro N. unfold within, with_distance. cbn [row_distance].
  destruct (PrimFloat.is_nan lat) eqn:Nlat.
  - rewrite (bind_nan lat Nlat). reflexivity.
  - destruct (PrimFloat.is_nan lon) eqn:Nlon.
    + rewrite (bind_nan lon Nlon). unfold distance_expression.
      now destruct (to_real (bind_parameter (VReal lat))).
    + cbn [orb] in N.
      destruct (distance_expression _ _ _ r) as [| | d |]; try reflexivity.
      now apply leb_nan_r.
Qed.

(** X8: with both reference coordinates supplied and not 0.0 (a NaN
    coordinate is not 0.0), and [max_price] and [min_beds] within the
    engine's integers, a NaN among [reference_lat], [reference_lon] and
    [max_distance] empties the result: [find_best_deals] returns no row,
    whatever the table. *)
Theorem nan_argument_returns_no_deal `{MathFunctions} (max_price min_beds : Z)
  (max_distance reference_lat reference_lon : float) (table : list listing) :
  int64 max_price && int64 min_beds = true ->
  Py.truthy_float reference_lat = true ->
  Py.truthy_float reference_lon = true ->
  PrimFloat.is_nan reference_lat || PrimFloat.is_nan reference_lon
  || PrimFloat.is_nan max_distance = true ->
  find_best_deals max_price min_beds max_distance (Some reference_lat) (Some reference_lon)
    table
  = Returned [].
Proof.
  intros Hfit Hlat Hlon N.
  rewrite find_best_deals_distance, Hfit by assumption.
  rewrite filter_nothing; [reflexivity|].
  intros o Ho. apply in_map_iff in Ho. destruct Ho as (r & <- & _).
  rewrite (within_nan _ _ _ r N). apply andb_false_r.
Qed.

Lemma nan_argument_returns_no_deal_example :
  find_best_deals (H := Libm.math) 600000 2 5 (Some nan) (Some Fixture.reference_lon)
    [Fixture.near; Fixture.far]
  = Returned [].
Proof.
  apply (nan_argument_returns_no_deal (H := Libm.math) 600000 2 5 nan Fixture.reference_lon
           [Fixture.near; Fixture.far] eq_refl (nan_is_truthy nan eq_refl) eq_refl eq_refl).
Defined.

(** ** Integers out of range *)

Lemma falsy_int_fits (n : Z) : Py.truthy_int n = false -> int64 n = true.
Proof.
  unfold Py.truthy_int. destruct (Z.eqb_spec n 0) as [->|]; [reflexivity | discriminate].
Qed.

Lemma query_listings_params_fit (c s : option string) (b p : option Z) :
  forallb storable (params (query_listings_statement c s b p)) = true ->
  fits b /\ fits p.
Proof.
  unfold query_listings_statement, query_listings_conditions, fits.
  destruct c as [c|], s as [s|], b as [b|], p as [p|]; cbn [Py.truthy];
    repeat match goal with
           | |- context [Py.truthy_str ?x] => destruct (Py.truthy_str x)
           | |- context [Py.truthy_int ?x] => destruct (Py.truthy_int x) eqn:?
           end;
    cbn [append_if fst snd app params of_str of_int forallb storable andb];
    rewrite ?andb_true_r; intro E;
    repeat match type of E with
           | _ && _ = true => apply andb_true_iff in E; destruct E as [? E]
           end;
    split; intros n En; inversion En; subst; auto using falsy_int_fits.
Qed.

Lemma calculate_average_price_params_fit (c s : option string) (b : option Z) :
  forallb storable (params (calculate_average_price_statement c s b)) = true -> fits b.
Proof.
  unfold calculate_average_price_statement, calculate_average_price_conditions, fits.
  destruct c as [c|], s as [s|], b as [b|]; cbn [Py.truthy];
    repeat match goal with
           | |- context [Py.truthy_str ?x] => destruct (Py.truthy_str x)
           | |- context [Py.truthy_int ?x] => destruct (Py.truthy_int x) eqn:?
           end;
    cbn [append_if fst snd app params of_str of_int forallb storable andb];
    rewrite ?andb_true_r; intro E;
    intros n En; inversion En; subst; auto using falsy_int_fits.
Qed.

(** X9: over a database that holds table [Sacramento], the statements of
    [query_listings] and [calculate_average_price] fail in one case only,
    an integer argument outside the engine's 64-bit range. The driver then
    raises its overflow error, which reaches the caller of the search
    through pandas and the caller of the average directly; in every other
    case each function returns a result. *)
Theorem out_of_range_integers_raise `{MathFunctions}
  (city state : option string) (min_beds max_price beds : option Z) (table : list listing) :
  (query_listings city state min_beds max_price table = Raised (ViaPandas overflow)
   <-> ~ (fits min_beds /\ fits max_price))
  /\ ((exists rows, query_listings city state min_beds max_price table = Returned rows)
      <-> fits min_beds /\ fits max_price)
  /\ (calculate_average_price city state beds table = Raised overflow <-> ~ fits beds)
  /\ ((exists st, calculate_average_price city state beds table = Returned st)
      <-> fits beds).
Proof.
  split; [|split; [|split]].
  - rewrite query_listings_rows.
    destruct (forallb storable (params (query_listings_statement city state min_beds
                                          max_price))) eqn:E.
    + apply query_listings_params_fit in E. split; [discriminate | tauto].
    + split; [|reflexivity]. intros _ [Hb Hp].
      rewrite (query_listings_params_storable city state _ _ Hb Hp) in E. discriminate E.
  - rewrite query_listings_rows.
    destruct (forallb storable (params (query_listings_statement city state min_beds
                                          max_price))) eqn:E.
    + apply query_listings_params_fit in E. split; [tauto | eauto].
    + split; [intros [rows Hrows]; discriminate Hrows|]. intros [Hb Hp].
      rewrite (query_listings_params_storable city state _ _ Hb Hp) in E. discriminate E.
  - unfold calculate_average_price. rewrite calculate_average_price_aggregate.
    destruct (forallb storable (params (calculate_average_price_statement city state beds)))
      eqn:E.
    + apply calculate_average_price_params_fit in E. split; [|tauto]. cbv zeta.
      destruct (filter (average_filter city state beds) table); discriminate.
    + split; [|reflexivity]. intros _ Hb.
      rewrite (calculate_average_price_params_storable city state _ Hb) in E.
      discriminate E.
  - split.
    + intros [st Hst]. unfold calculate_average_price in Hst.
      rewrite calculate_average_price_aggregate in Hst.
      destruct (forallb storable (params (calculate_average_price_statement city state beds)))
        eqn:E; [now apply calculate_average_price_params_fit in E | discriminate Hst].
    + intro Hb. eexists. now apply calculate_average_price_value.
Qed.

(** * The chat front end *)

Lemma ai_contents_app (l1 l2 : list App.message) :
  App.ai_contents (l1 ++ l2)%list = (App.ai_contents l1 ++ App.ai_contents l2)%list.
Proof.
  induction l1 as [|m l1 IH]; simpl; [reflexivity|].
  destruct m; simpl; now rewrite IH.
Qed.

Lemma ai_contents_none (l : list App.message) :
  Forall App.not_ai l -> App.ai_contents l = [].
Proof.
  induction 1 as [|m l Hm Hl IH]; [reflexivity|].
  destruct m; simpl; try assumption. now elim (Hm content).
Qed.

Lemma last_ai_content (l1 l2 : list App.message) (c : string) :
  Forall App.not_ai l2 ->
  exists before,
    App.ai_contents (l1 ++ App.AIMessage c :: l2)%list = (before ++ [c])%list.
Proof.
  intro H2. exists (App.ai_contents l1).
  rewrite ai_contents_app. cbn [App.ai_contents]. now rewrite (ai_contents_none l2 H2).
Qed.

Lemma answer_of_last_ai (str_response : App.response -> string)
  (l1 l2 : list App.message) (c : string) :
  Forall App.not_ai l2 ->
  App.process_agent_response str_response
    (App.Dict (Some (l1 ++ App.AIMessage c :: l2)%list))
  = c.
Proof.
  intro H2. unfold App.process_agent_response.
  destruct (last_ai_content l1 l2 c H2) as [before E]. rewrite E.
  destruct (before ++ [c])%list eqn:F.
  - now destruct before.
  - rewrite <- F. apply last_last.
Qed.

(** X10: [process_agent_response] answers with the content of the last
    AI message of the response, whatever comes before it and whatever
    human, system or tool messages come after it; a response without AI
    message, without ["messages"] entry, or that is no dictionary, is
    answered by its [str]. *)
Theorem last_ai_message_is_the_answer (str_response : App.response -> string) :
  (forall l1 c l2,
     Forall App.not_ai l2 ->
     App.process_agent_response str_response
       (App.Dict (Some (l1 ++ App.AIMessage c :: l2)%list))
     = c)
  /\ (forall l,
        Forall App.not_ai l ->
        App.process_agent_response str_response (App.Dict (Some l))
        = str_response (App.Dict (Some l)))
  /\ App.process_agent_response str_response (App.Dict None) = str_response (App.Dict None)
  /\ App.process_agent_response str_response App.NotDict = str_response App.NotDict.
Proof.
  split; [|split; [|split]]; try reflexivity.
  - intros l1 c l2. apply answer_of_last_ai.
  - intros l Hl. unfold App.process_agent_response. now rewrite (ai_contents_none l Hl).
Qed.

Lemma sent_twice (s : App.session) (q : string) (sp : option App.dict) :
  App.agent_messages (App.sent_history s q) q sp
  = (App.SystemMessage (App.full_query q sp)
     :: map App.to_message (App.messages s)
     ++ [App.HumanMessage q; App.HumanMessage q])%list.
Proof.
  unfold App.agent_messages, App.sent_history.
  rewrite map_app, <- app_assoc. reflexivity.
Qed.

(** X11: sending a non-empty text appends to the session the user's
    message and one reply, and leaves the earlier messages as they were.
    The agent is called on the system message, the earlier messages and
    then the text twice, as its last two human messages. The reply is the
    content of the last AI message of the agent's response, or, when the
    call raises, the apology followed by the text of the exception. An
    empty text changes nothing. *)
Theorem send_appends_question_and_reply
  (str_response : App.response -> string) (invoke : list App.message -> App.response + string)
  (s : App.session) (q : string) (w : App.widgets) :
  q <> "" ->
  let input :=
    (App.SystemMessage (App.full_query q (Some (App.search_params_of s w)))
     :: map App.to_message (App.messages s)
     ++ [App.HumanMessage q; App.HumanMessage q])%list in
  (exists reply,
     App.messages (App.step str_response invoke s (App.Send q w))
     = (App.messages s
        ++ [ {| App.role := "user"; App.content := q |};
             {| App.role := "ai"; App.content := reply |} ])%list
     /\ (forall l1 c l2,
           invoke input = inl (App.Dict (Some (l1 ++ App.AIMessage c :: l2)%list)) ->
           Forall App.not_ai l2 -> reply = c)
     /\ (forall e,
           invoke input = inr e ->
           reply = "🏠 Oops! Search encountered an issue: " ++ e))
  /\ App.use_filters (App.step str_response invoke s (App.Send q w)) = App.use_filters s
  /\ App.step str_response invoke s (App.Send "" w) = s.
Proof.
  intros Hq input.
  assert (Tq : Py.truthy_str q = true).
  { unfold Py.truthy_str. now destruct (String.eqb_spec q ""). }
  split; [|split; [|reflexivity]].
  - exists (App.process_query str_response invoke (App.sent_history s q) q
              (Some (App.search_params_of s w))).
    split; [|split].
    + cbn [App.step]. rewrite Tq. cbn [App.messages]. unfold App.sent_history.
      rewrite <- app_assoc. reflexivity.
    + intros l1 c l2 E H2. unfold App.process_query. rewrite sent_twice.
      fold input. rewrite E. now apply answer_of_last_ai.
    + intros e E. unfold App.process_query. rewrite sent_twice. fold input. now rewrite E.
  - cbn [App.step]. now rewrite Tq.
Qed.

Lemma send_appends_question_and_reply_example :
  App.messages
    (App.step (fun _ => "") App.unreachable App.initial (App.Send "Any 3-bed homes?" App.sidebar))
  = [ App.greeting;
      {| App.role := "user"; App.content := "Any 3-bed homes?" |};
      {| App.role := "ai";
         App.content := "🏠 Oops! Search encountered an issue: Connection refused" |} ].
Proof.
  destruct (send_appends_question_and_reply (fun _ => "") App.unreachable App.initial
              "Any 3-bed homes?" App.sidebar ltac:(discriminate))
    as ((reply & Hmessages & _ & Hraise) & _).
  rewrite Hmessages, (Hraise "Connection refused" eq_refl). reflexivity.
Defined.

Lemma step_keeps_greeting
  (str_response : App.response -> string) (invoke : list App.message -> App.response + string)
  (s : App.session) (e : App.event) :
  (exists rest, App.messages s = App.greeting :: rest) ->
  exists rest, App.messages (App.step str_response invoke s e) = App.greeting :: rest.
Proof.
  intros [rest Hs]. destruct e as [value| |q w]; cbn [App.step App.messages].
  - eauto.
  - eauto.
  - destruct (Py.truthy_str q); cbn [App.messages]; [|eauto].
    unfold App.sent_history. rewrite Hs. cbn [app]. eauto.
Qed.

(** X12: whatever the user does (sending texts, clearing the chat,
    ticking the filter box) and whatever the agent answers, the chat
    history of a session begins with the assistant's greeting. *)
Theorem chat_begins_with_the_greeting
  (str_response : App.response -> string) (invoke : list App.message -> App.response + string)
  (events : list App.event) :
  exists rest,
    App.messages (App.run str_response invoke App.initial events) = App.greeting :: rest.
Proof.
  unfold App.run.
  assert (H0 : exists rest, App.messages App.initial = App.greeting :: rest)
    by (exists []; reflexivity).
  revert H0. generalize App.initial as s.
  induction events as [|e events IH]; intros s Hs; cbn [fold_left]; [exact Hs|].
  apply IH. now apply step_keeps_greeting.
Qed.

Lemma step_appends
  (str_response : App.response -> string) (invoke : list App.message -> App.response + string)
  (s : App.session) (e : App.event) :
  e <> App.ClearChat ->
  exists added,
    App.messages (App.step str_response invoke s e) = (App.messages s ++ added)%list
    /\ List.length added = (2 * App.sent [e])%nat.
Proof.
  intro He. destruct e as [value| |q w]; [| contradiction |];
    cbn [App.step App.messages App.sent].
  - exists []. now rewrite app_nil_r.
  - destruct (Py.truthy_str q); cbn [App.messages].
    + eexists. unfold App.sent_history. rewrite <- app_assoc. split; reflexivity.
    + exists []. now rewrite app_nil_r.
Qed.

Lemma sent_cons (e : App.event) (events : list App.event) :
  App.sent (e :: events) = (App.sent [e] + App.sent events)%nat.
Proof. destruct e as [value| |q w]; cbn [App.sent]; lia. Qed.

(** X13: as long as the chat is not cleared, the history only grows:
    after any run of events without a clearing, the earlier messages are
    still there, unchanged and first, followed by two messages (the text
    and the reply) for each non-empty text sent. *)
Theorem history_only_grows
  (str_response : App.response -> string) (invoke : list App.message -> App.response + string)
  (s : App.session) (events : list App.event) :
  App.no_clear events ->
  exists added,
    App.messages (App.run str_response invoke s events) = (App.messages s ++ added)%list
    /\ List.length added = (2 * App.sent events)%nat.
Proof.
  unfold App.run, App.no_clear. intro H. revert s.
  induction H as [|e events He Hrest IH]; intro s; cbn [fold_left].
  - exists []. now rewrite app_nil_r.
  - destruct (step_appends str_response invoke s e He) as (a1 & E1 & L1).
    destruct (IH (App.step str_response invoke s e)) as (a2 & E2 & L2).
    exists (a1 ++ a2)%list. rewrite E2, E1, <- app_assoc. split; [reflexivity|].
    rewrite length_app, L1, L2, (sent_cons e events). lia.
Qed.

Lemma history_only_grows_example :
  exists added,
    App.messages
      (App.run (fun _ => "") App.echo App.initial
         [App.Send "Any 3-bed homes?" App.sidebar; App.Checkbox true;
          App.Send "" App.sidebar; App.Send "Under $500,000?" App.sidebar])
    = (App.messages App.initial ++ added)%list
    /\ List.length added = 4%nat.
Proof.
  apply (history_only_grows (fun _ => "") App.echo App.initial
           [App.Send "Any 3-bed homes?" App.sidebar; App.Checkbox true;
            App.Send "" App.sidebar; App.Send "Under $500,000?" App.sidebar]).
  repeat constructor; discriminate.
Defined.

(** X14: the system message built from the sidebar. With the filter box
    ticked it is the template filled with the sidebar's values, none of
    the template's defaults being used, and the property type [Any] is
    written [None]; with the box unticked it is the user's query alone
    and no sidebar value reaches the agent. *)
Theorem prompt_of_the_sidebar (s : App.session) (w : App.widgets) (q : string) :
  App.full_query q (Some (App.search_params_of s w))
  = if App.use_filters s then
      nl ++
      "            Property Search Details:" ++ nl ++
      "            Location: " ++ App.location w ++ nl ++
      "            Max Budget: $" ++ App.str (App.PInt (App.max_price w)) ++ nl ++
      "            Min Bedrooms: " ++ App.str (App.PInt (App.min_beds w)) ++ nl ++
      "            Min Bathrooms: " ++ App.str (App.PInt (App.min_baths w)) ++ nl ++
      "            Mosque Proximity: "
        ++ (if App.near_mosque w then "Required" else "Optional") ++ nl ++
      "            Halal Financing: "
        ++ (if App.halal_finance w then "Required" else "Optional") ++ nl ++
      "            Property Type: "
        ++ (if (App.property_type w =? "Any")%string then "None" else App.property_type w)
        ++ nl ++
      nl ++
      "            User Query: " ++ q ++ nl ++
      "            "
    else "User Query: " ++ q.
Proof.
  unfold App.full_query, App.filters_on, App.search_params_of.
  cbn [App.get String.eqb Ascii.eqb Bool.eqb App.truthy].
  destruct (App.use_filters s); [|reflexivity].
  cbn [App.str App.required App.truthy].
  destruct (App.property_type w =? "Any")%string; reflexivity.
Qed.
